(** * SpaceX launch records dashboard: the two callbacks of [spacex-dash-app.py]

    A shallow embedding of the tabular logic of the dashboard: the pandas
    operations the callbacks use (boolean masks, [groupby().sum()],
    [value_counts], [rename], [reindex], [min]/[max]), the layout controls,
    and the two callbacks [update_pie_chart] and [update_scatter_chart],
    followed by the properties of the specification. *)

From Stdlib Require Import QArith.
From stdpp Require Import base decidable option list strings sorting.

Close Scope Q_scope.
Open Scope string_scope.

(** ** Data model *)

(** A number as the callbacks meet it: an integer (a cell of an int64
    column, or a Python [int]), a finite float64, given by the rational it
    denotes (a cell of a float64 column, or a Python [float]), or NaN (a
    missing value). *)
Inductive num : Type :=
  | Int (z : Z)
  | Float (q : Q)
  | NaN.

(** The dtype [read_csv] gives the payload column: int64 when every cell
    of the file is an integer, float64 otherwise (NaN only exists there). *)
Inductive dtype : Type :=
  | int64
  | float64.

Definition cell (d : dtype) : Type :=
  match d with
  | int64 => Z
  | float64 => option Q
  end.

(** A cell as a number. *)
Definition as_num {d : dtype} : cell d → num :=
  match d with
  | int64 => Int
  | float64 => λ c, match c with Some q => Float q | None => NaN end
  end.

(** The rational a number denotes. *)
Definition value (x : num) : option Q :=
  match x with
  | Int z => Some (inject_Z z)
  | Float q => Some q
  | NaN => None
  end.

(** One row of [spacex_df], with the three columns the callbacks read:
    ['Launch Site'] (a string, or [None] for NaN when the cell of the file
    is blank), ['Payload Mass (kg)'] (a cell of the dtype of the column)
    and ['class'] (an int64). *)
Record LaunchRecord (d : dtype) : Type := mkRecord {
  Launch_Site : option string;
  Payload_Mass : cell d;
  class : Z
}.
Arguments mkRecord {d} _ _ _.
Arguments Launch_Site {d} _.
Arguments Payload_Mass {d} _.
Arguments class {d} _.

(** The data frame: the dtype of its payload column, its column names (the
    schema; the three columns above are always among them, the booster
    columns may or may not be) and its rows in file order. *)
Record DataFrame : Type := mkFrame {
  payload_dtype : dtype;
  columns : list string;
  rows : list (LaunchRecord payload_dtype)
}.

(** An index label of a Series: pandas indexes hold arbitrary objects; the
    callbacks use strings and integers. *)
Inductive label : Type :=
  | LStr (s : string)
  | LInt (z : Z).

#[global] Instance label_eq_dec : EqDecision label.
Proof. solve_decision. Defined.

(** A labelled Series of integers, in index order. *)
Definition Series : Type := list (label * Z).

(** The classes of the Python exceptions the callbacks can meet. *)
Inductive exn : Type :=
  | ValueError
  | TypeError.

Inductive result (A : Type) : Type :=
  | Ok (a : A)
  | Raise (e : exn).
Arguments Ok {A} a.
Arguments Raise {A} e.

Definition bind {A B} (r : result A) (k : A → result B) : result B :=
  match r with
  | Ok a => k a
  | Raise e => Raise e
  end.

Notation "'let?' x ':=' r 'in' k" := (bind r (λ x, k))
  (at level 10, x name, r at level 100, k at level 200).

(** An item of the list the slider sends: a number, [None], or a string. *)
Inductive pyitem : Type :=
  | PNum (x : num)
  | PNone
  | PStr (s : string).

(** ** The pandas operations *)

Module pd.

(** The float64 nearest to an integer (ties to the even significand): the
    conversion numpy makes when an integer meets a float in a comparison.
    Integers up to 2^53 in magnitude are kept; beyond, the integer is
    rounded to 53 significant bits. *)
Definition round_to (k z : Z) : Z :=
  let m := (2 ^ k)%Z in
  let q := (z / m)%Z in
  let r := (z mod m)%Z in
  if (2 * r <? m)%Z then (q * m)%Z
  else if (m <? 2 * r)%Z then ((q + 1) * m)%Z
  else if Z.even q then (q * m)%Z else ((q + 1) * m)%Z.

Definition to_float (z : Z) : Z :=
  let e := (Z.log2 (Z.abs z) - 52)%Z in
  if (e <=? 0)%Z then z else round_to e z.

(** [cell >= x] and [cell <= x] for a cell of the column and a number [x]:
    two integers are compared as integers, two floats as floats, an integer
    and a float after the conversion of the integer to float64; a
    comparison with NaN is False. *)
Definition ge (v x : num) : bool :=
  match v, x with
  | Int a, Int b => (b <=? a)%Z
  | Int a, Float q => Qle_bool q (inject_Z (to_float a))
  | Float p, Int b => Qle_bool (inject_Z (to_float b)) p
  | Float p, Float q => Qle_bool q p
  | _, _ => false
  end.

Definition le (v x : num) : bool :=
  match v, x with
  | Int a, Int b => (a <=? b)%Z
  | Int a, Float q => Qle_bool (inject_Z (to_float a)) q
  | Float p, Int b => Qle_bool p (inject_Z (to_float b))
  | Float p, Float q => Qle_bool p q
  | _, _ => false
  end.

(** [series >= x] and [series <= x] for a Python value [x]: cell by cell
    for a number; all False for [None], which pandas takes for a missing
    value; TypeError for a string against a numeric column. *)
Definition series_ge {d} (s : list (cell d)) (x : pyitem) : result (list bool) :=
  match x with
  | PNum x => Ok ((λ v, ge (as_num v) x) <$> s)
  | PNone => Ok ((λ _, false) <$> s)
  | PStr _ => Raise TypeError
  end.

Definition series_le {d} (s : list (cell d)) (x : pyitem) : result (list bool) :=
  match x with
  | PNum x => Ok ((λ v, le (as_num v) x) <$> s)
  | PNone => Ok ((λ _, false) <$> s)
  | PStr _ => Raise TypeError
  end.

(** [series == x] for a string [x]: a NaN cell is equal to nothing. *)
Definition series_eq (s : list (option string)) (x : string) : list bool :=
  (λ v, bool_decide (v = Some x)) <$> s.

(** [m1 & m2] *)
Definition mask_and (m1 m2 : list bool) : list bool := zip_with andb m1 m2.

(** [df[mask]]: the rows whose mask cell is True, in order. *)
Fixpoint select {A} (rs : list A) (mask : list bool) : list A :=
  match rs, mask with
  | r :: rs', b :: mask' => if b then r :: select rs' mask' else select rs' mask'
  | _, _ => []
  end.

(** [Series.max()] and [Series.min()]: NaN cells are skipped; the result is
    NaN when no number is left, and has the dtype of the column otherwise. *)
Definition Qmax' (a b : Q) : Q := if Qle_bool a b then b else a.
Definition Qmin' (a b : Q) : Q := if Qle_bool a b then a else b.

Fixpoint reduce (f : Q → Q → Q) (s : list (option Q)) : option Q :=
  match s with
  | [] => None
  | v :: s' =>
      match v, reduce f s' with
      | None, m => m
      | Some a, None => Some a
      | Some a, Some b => Some (f a b)
      end
  end.

Definition reduce_int (f : Z → Z → Z) (s : list Z) : num :=
  match s with
  | [] => NaN
  | a :: s' => Int (foldr f a s')
  end.

Definition max {d} : list (cell d) → num :=
  match d with
  | int64 => reduce_int Z.max
  | float64 => λ s, from_option Float NaN (reduce Qmax' s)
  end.

Definition min {d} : list (cell d) → num :=
  match d with
  | int64 => reduce_int Z.min
  | float64 => λ s, from_option Float NaN (reduce Qmin' s)
  end.

(** [Series.unique()]: the distinct values in order of first appearance;
    NaN is one of the values. *)
Fixpoint unique `{EqDecision A} (l : list A) : list A :=
  match l with
  | [] => []
  | x :: l' => x :: filter (λ y, y ≠ x) (unique l')
  end.

(** [Series.sum()] of an int64 Series: the addition wraps around at 64
    bits. *)
Definition wrap64 (z : Z) : Z := ((z + 2 ^ 63) mod 2 ^ 64 - 2 ^ 63)%Z.

Definition add64 (a b : Z) : Z := wrap64 (a + b).

Definition sum (l : list Z) : Z := foldr add64 0%Z l.

(** [df.groupby(key)[val].sum().reset_index()]: one row per distinct key,
    the keys sorted ascending ([sort=True] is the default), each with the
    sum of [val] over the rows of its group; the rows whose key is NaN are
    in no group ([dropna=True] is the default). *)
Definition group_sum {A} (key : A → option string) (val : A → Z) (rs : list A)
    (k : string) : Z :=
  sum (val <$> filter (λ r, key r = Some k) rs).

Definition groupby_sum {A} (key : A → option string) (val : A → Z) (rs : list A)
    : list (string * Z) :=
  (λ k, (k, group_sum key val rs k))
    <$> merge_sort String.le (unique (omap key rs)).

(** [Series.value_counts()]: the distinct values with the number of their
    occurrences, the most frequent first. *)
Definition count (z : Z) (l : list Z) : Z :=
  Z.of_nat (length (filter (λ y, y = z) l)).

Definition by_count_desc (a b : label * Z) : Prop := (b.2 ≤ a.2)%Z.

#[global] Instance by_count_desc_dec : RelDecision by_count_desc.
Proof. intros a b. unfold by_count_desc. apply _. Defined.

Definition value_counts (l : list Z) : Series :=
  merge_sort by_count_desc ((λ z, (LInt z, count z l)) <$> unique l).

(** A dict lookup [d.get(k)] on an association list. *)
Fixpoint get {V} (d : list (label * V)) (k : label) : option V :=
  match d with
  | [] => None
  | (k', v) :: d' => if decide (k' = k) then Some v else get d' k
  end.

(** [Series.rename(index=d)]: the labels that are keys of [d] are replaced,
    the others are kept. *)
Definition rename (d : list (label * label)) (s : Series) : Series :=
  (λ kv, (default kv.1 (get d kv.1), kv.2)) <$> s.

(** [Series.reindex(labels, fill_value=fill)]: the Series with exactly the
    given labels, in the given order; a label the Series does not have gets
    [fill]. pandas refuses to reindex a Series whose index has duplicate
    labels. *)
Definition reindex (labels : list label) (fill : Z) (s : Series) : result Series :=
  if decide (NoDup s.*1)
  then Ok ((λ l, (l, default fill (get s l))) <$> labels)
  else Raise ValueError.

End pd.

(** ** Python values and figures *)

(** The value a callback receives for [payload_range]: the slider sends a
    list of two numbers; anything else (a tuple, [None], a bare number, a
    string, a list of other items) can reach the callback as well. *)
Inductive pyval : Type :=
  | PyList (xs : list pyitem)
  | PyTuple (xs : list pyitem)
  | PyNone
  | PyNumber (x : num)
  | PyStr (s : string).

(** [isinstance(v, (list, tuple))] *)
Definition is_list_or_tuple (v : pyval) : bool :=
  match v with
  | PyList _ | PyTuple _ => true
  | _ => false
  end.

(** [low, high = v] for a sequence [v]: exactly two items, or ValueError. *)
Definition unpack2 (xs : list pyitem) : result (pyitem * pyitem) :=
  match xs with
  | [a; b] => Ok (a, b)
  | _ => Raise ValueError
  end.

Definition items (v : pyval) : list pyitem :=
  match v with
  | PyList xs | PyTuple xs => xs
  | _ => []
  end.

(** Truth value of [color_col]: [None] and the empty string are falsy. *)
Definition truthy (c : option string) : bool :=
  match c with
  | Some s => negb (String.eqb s "")
  | None => false
  end.

Record Margin : Type := mkMargin { m_t : Z; m_b : Z; m_l : Z; m_r : Z }.

(** What [px.pie] is given, and what the callback sets afterwards. *)
Record PieFigure : Type := mkPie {
  pie_data_frame : list (label * Z);
  pie_names : string;
  pie_values : string;
  pie_title : string;
  pie_textinfo : string;
  pie_margin : Margin
}.

(** What [px.scatter] is given, and what the callback sets afterwards. *)
Record ScatterFigure (d : dtype) : Type := mkScatter {
  scatter_data_frame : list (LaunchRecord d);
  scatter_x : string;
  scatter_y : string;
  scatter_color : option string;
  scatter_hover_data : list string;
  scatter_title : string;
  scatter_labels : list (string * string);
  scatter_margin : Margin;
  scatter_tickvals : list Z;
  scatter_yaxis_title : string;
  scatter_xaxis_title : string
}.
Arguments mkScatter {d} _ _ _ _ _ _ _ _ _ _ _.
Arguments scatter_data_frame {d} _.
Arguments scatter_x {d} _.
Arguments scatter_y {d} _.
Arguments scatter_color {d} _.
Arguments scatter_hover_data {d} _.
Arguments scatter_title {d} _.
Arguments scatter_labels {d} _.
Arguments scatter_margin {d} _.
Arguments scatter_tickvals {d} _.
Arguments scatter_yaxis_title {d} _.
Arguments scatter_xaxis_title {d} _.

(** An option of the dropdown; label and value are strings, or [None] for
    the NaN of a missing launch site. *)
Record DropdownOption : Type := mkOption {
  opt_label : option string;
  opt_value : option string
}.

Record Dropdown : Type := mkDropdown {
  dd_id : string;
  dd_options : list DropdownOption;
  dd_value : string;
  dd_placeholder : string;
  dd_searchable : bool
}.

Record RangeSlider : Type := mkSlider {
  rs_id : string;
  rs_min : Q;
  rs_max : Q;
  rs_step : Q;
  rs_value : list num;
  rs_marks : list (Z * string)
}.

(** ** The application *)

Section App.

(** [spacex_df = pd.read_csv("spacex_launch_dash.csv")] *)
Variable spacex_df : DataFrame.

Definition max_payload : num := pd.max (Payload_Mass <$> rows spacex_df).
Definition min_payload : num := pd.min (Payload_Mass <$> rows spacex_df).

(** The two controls of [app.layout]. *)
Definition site_dropdown : Dropdown :=
  {| dd_id := "site-dropdown";
     dd_options :=
       [mkOption (Some "All Sites") (Some "ALL")] ++
       ((λ site, mkOption site site) <$> pd.unique (Launch_Site <$> rows spacex_df));
     dd_value := "ALL";
     dd_placeholder := "Select a Launch Site here";
     dd_searchable := true |}.

Definition payload_slider : RangeSlider :=
  {| rs_id := "payload-slider";
     rs_min := 0%Q;
     rs_max := 10000%Q;
     rs_step := 1000%Q;
     rs_value := [min_payload; max_payload];
     rs_marks := [(0, "0"); (2500, "2500"); (5000, "5000"); (7500, "7500");
                  (10000, "10000")]%Z |}.

Definition update_pie_chart (selected_site : string) : result PieFigure :=
  let? fig :=
    if String.eqb selected_site "ALL" then
      let pie_df := pd.groupby_sum Launch_Site class (rows spacex_df) in
      Ok {| pie_data_frame := (λ kv, (LStr kv.1, kv.2)) <$> pie_df;
            pie_names := "Launch Site";
            pie_values := "class";
            pie_title := "Total Successful Launches by Site";
            pie_textinfo := "";
            pie_margin := mkMargin 0 0 0 0 |}
    else
      let site_df :=
        pd.select (rows spacex_df)
                  (pd.series_eq (Launch_Site <$> rows spacex_df) selected_site) in
      let counts :=
        pd.rename [(LInt 1, LStr "Success"); (LInt 0, LStr "Failure")]
                  (pd.value_counts (class <$> site_df)) in
      let? counts := pd.reindex [LStr "Success"; LStr "Failure"] 0 counts in
      Ok {| pie_data_frame := counts;
            pie_names := "result";
            pie_values := "count";
            pie_title := "Success vs. Failure for site: " +:+ selected_site;
            pie_textinfo := "";
            pie_margin := mkMargin 0 0 0 0 |}
  in
  Ok {| pie_data_frame := pie_data_frame fig;
        pie_names := pie_names fig;
        pie_values := pie_values fig;
        pie_title := pie_title fig;
        pie_textinfo := "percent+label";
        pie_margin := mkMargin 50 20 20 20 |}.

Definition update_scatter_chart (selected_site : string) (payload_range : pyval)
    : result (ScatterFigure (payload_dtype spacex_df)) :=
  let? lh :=
    if is_list_or_tuple payload_range then unpack2 (items payload_range)
    else Ok (PNum min_payload, PNum max_payload) in
  let low := lh.1 in
  let high := lh.2 in
  let? ge_mask := pd.series_ge (Payload_Mass <$> rows spacex_df) low in
  let? le_mask := pd.series_le (Payload_Mass <$> rows spacex_df) high in
  let mask := pd.mask_and ge_mask le_mask in
  let filtered_df := pd.select (rows spacex_df) mask in
  let color_col :=
    if decide ("Booster Version Category" ∈ columns spacex_df)
    then Some "Booster Version Category"
    else if decide ("Booster Version" ∈ columns spacex_df)
    then Some "Booster Version"
    else None in
  let '(scatter_df, title) :=
    if String.eqb selected_site "ALL" then
      (filtered_df, "Payload vs Outcome for all sites")
    else
      (pd.select filtered_df (pd.series_eq (Launch_Site <$> filtered_df) selected_site),
       "Payload vs Outcome for " +:+ selected_site) in
  let fig :=
    {| scatter_data_frame := scatter_df;
       scatter_x := "Payload Mass (kg)";
       scatter_y := "class";
       scatter_color := if truthy color_col then color_col else None;
       scatter_hover_data := ["Launch Site"; "Payload Mass (kg)"];
       scatter_title := title;
       scatter_labels := [("class", "Launch Outcome (1=Success, 0=Failure)")];
       scatter_margin := mkMargin 0 0 0 0;
       scatter_tickvals := [];
       scatter_yaxis_title := "class";
       scatter_xaxis_title := "Payload Mass (kg)" |} in
  Ok {| scatter_data_frame := scatter_data_frame fig;
        scatter_x := scatter_x fig;
        scatter_y := scatter_y fig;
        scatter_color := scatter_color fig;
        scatter_hover_data := scatter_hover_data fig;
        scatter_title := scatter_title fig;
        scatter_labels := scatter_labels fig;
        scatter_margin := mkMargin 50 20 20 20;
        scatter_tickvals := [0; 1]%Z;
        scatter_yaxis_title := "Launch Outcome (class)";
        scatter_xaxis_title := "Payload Mass (kg)" |}.

End App.

(** ** The concrete scenario of the specification *)

Definition scenario_df : DataFrame :=
  {| payload_dtype := int64;
     columns := ["Launch Site"; "Payload Mass (kg)"; "class"];
     rows := [ mkRecord (d:=int64) (Some "CCAFS") 500%Z 1;
               mkRecord (d:=int64) (Some "CCAFS") 4000%Z 0;
               mkRecord (d:=int64) (Some "VAFB") 2000%Z 1 ] |}.

(** ** What the specification speaks of *)

(** The payload mass of a record, as a number. *)
Definition payload {d} (r : LaunchRecord d) : num := as_num (Payload_Mass r).

(** A record lies in the payload range: both cells of the mask are True. *)
Definition in_range {d} (low high : num) (r : LaunchRecord d) : Prop :=
  pd.ge (payload r) low = true ∧ pd.le (payload r) high = true.

(** A record passes the site filter of a selection. *)
Definition at_site {d} (site : string) (r : LaunchRecord d) : Prop :=
  site = "ALL" ∨ Launch_Site r = Some site.

Definition passes {d} (site : string) (low high : num) (r : LaunchRecord d) : Prop :=
  in_range low high r ∧ at_site site r.

#[global] Instance num_eq_dec_NaN (x : num) : Decision (x = NaN).
Proof. destruct x; [right; discriminate..|by left]. Defined.

#[global] Instance in_range_dec {d} low high (r : LaunchRecord d) :
  Decision (in_range low high r).
Proof. unfold in_range. apply _. Defined.

#[global] Instance at_site_dec {d} site (r : LaunchRecord d) :
  Decision (at_site site r).
Proof. unfold at_site. apply _. Defined.

#[global] Instance passes_dec {d} site low high (r : LaunchRecord d) :
  Decision (passes site low high r).
Proof. unfold passes. apply _. Defined.

(** An integer that float64 holds exactly: at most 2^53 in magnitude. The
    comparisons of such integers with floats are the comparisons of their
    values. *)
Definition safe (x : num) : Prop :=
  match x with
  | Int z => (Z.abs z ≤ 2 ^ 53)%Z
  | _ => True
  end.

Definition safe_payloads (df : DataFrame) : Prop :=
  ∀ r, r ∈ rows df → safe (payload r).

(** The dataset keeps the invariants of the data model: every outcome class
    is 0 or 1; every record has a launch site. *)
Definition binary (df : DataFrame) : Prop :=
  ∀ r, r ∈ rows df → class r = 0%Z ∨ class r = 1%Z.

Definition no_missing_site (df : DataFrame) : Prop :=
  ∀ r, r ∈ rows df → Launch_Site r ≠ None.

(** Exact sum of integers, without the wrap-around of int64. *)
Definition total (l : list Z) : Z := foldr Z.add 0%Z l.

(** Number of the records of a site with a given outcome class. *)
Definition outcome_count (df : DataFrame) (site : string) (c : Z) : Z :=
  Z.of_nat (length (filter (λ r, Launch_Site r = Some site ∧ class r = c) (rows df))).

Definition site_count (df : DataFrame) (site : string) : Z :=
  Z.of_nat (length (filter (λ r, Launch_Site r = Some site) (rows df))).

(** Number of the successful launches of the dataset that have a launch
    site. *)
Definition success_count (df : DataFrame) : Z :=
  Z.of_nat (length (filter (λ r, class r = 1%Z ∧ Launch_Site r ≠ None) (rows df))).

(** The bounds line 92 of the source unpacks from [payload_range]. *)
Definition bounds_of (df : DataFrame) (payload_range : pyval)
    : result (pyitem * pyitem) :=
  if is_list_or_tuple payload_range then unpack2 (items payload_range)
  else Ok (PNum (min_payload df), PNum (max_payload df)).

(** The number a bound stands for in the comparisons of the mask: [None]
    compares like NaN, a string does not compare. *)
Definition bound_num (x : pyitem) : option num :=
  match x with
  | PNum x => Some x
  | PNone => Some NaN
  | PStr _ => None
  end.

(** The column lines 98-103 of the source choose for the colours. *)
Definition booster_column (df : DataFrame) : option string :=
  if decide ("Booster Version Category" ∈ columns df)
  then Some "Booster Version Category"
  else if decide ("Booster Version" ∈ columns df)
  then Some "Booster Version"
  else None.

(** The renaming of the source: 1 becomes 'Success', 0 becomes 'Failure'. *)
Definition outcome_names : list (label * label) :=
  [(LInt 1, LStr "Success"); (LInt 0, LStr "Failure")].

Definition renamed (k : label) : label := default k (pd.get outcome_names k).

(** A figure when the callback returned one. *)
Definition result_to_option {A} (r : result A) : option A :=
  match r with
  | Ok a => Some a
  | Raise _ => None
  end.

(** A dataset with a launch site whose name is the string of the sentinel. *)
Definition sentinel_df : DataFrame :=
  {| payload_dtype := int64;
     columns := ["Launch Site"; "Payload Mass (kg)"; "class"];
     rows := [ mkRecord (d:=int64) (Some "ALL") 500%Z 1;
               mkRecord (d:=int64) (Some "ALL") 4000%Z 0 ] |}.

(** A dataset with a record whose class is neither 0 nor 1, and a record
    without payload mass. *)
Definition odd_class_df : DataFrame :=
  {| payload_dtype := float64;
     columns := ["Launch Site"; "Payload Mass (kg)"; "class"];
     rows := [ mkRecord (d:=float64) (Some "KSC") (Some 500%Q) 1;
               mkRecord (d:=float64) (Some "KSC") (Some 4000%Q) 2;
               mkRecord (d:=float64) (Some "KSC") None 0 ] |}.


(** A dataset with a record whose launch site is missing. *)
Definition blank_site_df : DataFrame :=
  {| payload_dtype := int64;
     columns := ["Launch Site"; "Payload Mass (kg)"; "class"];
     rows := [ mkRecord (d:=int64) None 500%Z 1;
               mkRecord (d:=int64) (Some "KSC") 2000%Z 1 ] |}.

(** The dataset after one more record was appended to the file. *)
Definition append_record (df : DataFrame) (r : LaunchRecord (payload_dtype df))
    : DataFrame :=
  {| payload_dtype := payload_dtype df;
     columns := columns df;
     rows := rows df ++ [r] |}.

(** The dataset cut down to the given rows, with the same schema. *)
Definition with_rows (df : DataFrame) (rs : list (LaunchRecord (payload_dtype df)))
    : DataFrame :=
  {| payload_dtype := payload_dtype df; columns := columns df; rows := rs |}.

(** Case analysis on a membership in an explicit list of rows. *)
Ltac in_rows H :=
  repeat (apply elem_of_cons in H as [-> | H]); [..| by apply elem_of_nil in H].

(** Every class of an explicit list of rows is 0 or 1. *)
Ltac binary_rows :=
  let r := fresh "r" in
  let Hr := fresh "Hr" in
  intros r Hr; cbn in Hr; in_rows Hr; cbn; auto.

(** The payload masses of an explicit list of rows are at most 2^53. *)
Ltac safe_rows :=
  let r := fresh "r" in
  let Hr := fresh "Hr" in
  intros r Hr; cbn in Hr; in_rows Hr; cbn; lia.

(** ** Boolean masks are filters *)

Section Masks.
Context {A : Type}.
Implicit Types (f g : A → bool) (l : list A).

Lemma select_fmap f l :
  pd.select l (f <$> l) = filter (λ x, f x = true) l.
Proof.
  induction l as [|x l IH]; [done|]. cbn [fmap list_fmap pd.select].
  rewrite filter_cons. fold (fmap f l). rewrite IH.
  destruct (f x); by case_decide.
Qed.

Lemma mask_and_fmap {B} (h : A → B) (p q : B → bool) l :
  pd.mask_and (p <$> (h <$> l)) (q <$> (h <$> l))
  = (λ x, p (h x) && q (h x)) <$> l.
Proof.
  unfold pd.mask_and. induction l as [|x l IH]; [done|].
  cbn. by f_equal.
Qed.

Lemma series_eq_fmap (h : A → option string) (s : string) l :
  pd.series_eq (h <$> l) s = (λ x, bool_decide (h x = Some s)) <$> l.
Proof. unfold pd.series_eq. by rewrite <- list_fmap_compose. Qed.

End Masks.

Lemma eqb_true_iff (a b : string) : String.eqb a b = true ↔ a = b.
Proof. apply String.eqb_eq. Qed.

(** The payload mask selects the records in range. *)
Lemma payload_mask_select {d} (rs : list (LaunchRecord d)) (low high : num) :
  pd.select rs
    (pd.mask_and ((λ v, pd.ge (as_num v) low) <$> (Payload_Mass <$> rs))
                 ((λ v, pd.le (as_num v) high) <$> (Payload_Mass <$> rs)))
  = filter (in_range low high) rs.
Proof.
  rewrite (mask_and_fmap Payload_Mass (λ v, pd.ge (as_num v) low)
             (λ v, pd.le (as_num v) high)).
  rewrite select_fmap. apply list_filter_iff. intros r. unfold in_range, payload.
  by rewrite andb_true_iff.
Qed.

(** The site mask selects the records of the site. *)
Lemma site_mask_select {d} (rs : list (LaunchRecord d)) (site : string) :
  pd.select rs (pd.series_eq (Launch_Site <$> rs) site)
  = filter (λ r, Launch_Site r = Some site) rs.
Proof.
  rewrite series_eq_fmap, select_fmap. apply list_filter_iff. intros r.
  apply bool_decide_eq_true.
Qed.

Lemma filter_iff_elem_of {A} (P1 P2 : A → Prop)
    `{!∀ x, Decision (P1 x), !∀ x, Decision (P2 x)} (l : list A) :
  (∀ x, x ∈ l → P1 x ↔ P2 x) → filter P1 l = filter P2 l.
Proof.
  intros Hl. induction l as [|x l IH]; [done|].
  rewrite !filter_cons, IH by (intros y ?; apply Hl; by right).
  assert (P1 x ↔ P2 x) as Hx by (apply Hl; by left).
  destruct (decide (P1 x)), (decide (P2 x)); done || tauto.
Qed.

Lemma filter_none {A} (P : A → Prop) `{!∀ x, Decision (P x)} (l : list A) :
  (∀ x, x ∈ l → ¬ P x) → filter P l = [].
Proof.
  intros Hl. induction l as [|x l IH]; [done|].
  rewrite filter_cons_False.
  - apply IH. intros y ?. apply Hl. by right.
  - apply Hl. by left.
Qed.

Lemma filter_sublist_mono {A} (P1 P2 : A → Prop)
    `{!∀ x, Decision (P1 x), !∀ x, Decision (P2 x)} (l : list A) :
  (∀ x, x ∈ l → P1 x → P2 x) → filter P1 l `sublist_of` filter P2 l.
Proof.
  intros Himp. induction l as [|x l IH]; [done|]. rewrite !filter_cons.
  assert (filter P1 l `sublist_of` filter P2 l) as IH'.
  { apply IH. intros y ?. apply Himp. by right. }
  destruct (decide (P1 x)) as [H1|H1], (decide (P2 x)) as [H2|H2].
  - by apply sublist_skip.
  - destruct H2. apply Himp; [by left|done].
  - by apply sublist_cons.
  - done.
Qed.

Lemma filter_idemp {A} (P : A → Prop) `{!∀ x, Decision (P x)} (l : list A) :
  filter P (filter P l) = filter P l.
Proof. rewrite list_filter_filter. apply list_filter_iff. intros x. tauto. Qed.

(** ** The scatter callback *)

Lemma ge_NaN (v : num) : pd.ge v NaN = false.
Proof. by destruct v. Qed.

Lemma le_NaN (v : num) : pd.le v NaN = false.
Proof. by destruct v. Qed.

(** A bound that is a number or [None] gives a mask; a string raises. *)
Lemma series_ge_bound {d} (s : list (cell d)) (x : pyitem) (b : num) :
  bound_num x = Some b →
  pd.series_ge s x = Ok ((λ v, pd.ge (as_num v) b) <$> s).
Proof.
  destruct x; intros [= <-]; [done|]. cbn. f_equal.
  apply list_fmap_ext. intros _ v _. by rewrite ge_NaN.
Qed.

Lemma series_le_bound {d} (s : list (cell d)) (x : pyitem) (b : num) :
  bound_num x = Some b →
  pd.series_le s x = Ok ((λ v, pd.le (as_num v) b) <$> s).
Proof.
  destruct x; intros [= <-]; [done|]. cbn. f_equal.
  apply list_fmap_ext. intros _ v _. by rewrite le_NaN.
Qed.





(** Once the bounds are unpacked and compare with the column, the callback
    returns a figure, whose points are the records that pass both filters,
    in dataset order. *)
Lemma update_scatter_chart_bounds df site rng lo hi low high :
  bounds_of df rng = Ok (lo, hi) →
  bound_num lo = Some low →
  bound_num hi = Some high →
  ∃ fig, update_scatter_chart df site rng = Ok fig
         ∧ scatter_data_frame fig = filter (passes site low high) (rows df)
         ∧ scatter_color fig = booster_column df.
Proof.
  unfold bounds_of, update_scatter_chart. intros -> Hlo Hhi. cbn [bind fst snd].
  rewrite (series_ge_bound _ _ _ Hlo), (series_le_bound _ _ _ Hhi).
  cbn [bind]. rewrite payload_mask_select.
  destruct (String.eqb site "ALL") eqn:Hall.
  - eexists. split; [reflexivity|]. cbn. split.
    + apply eqb_true_iff in Hall. apply list_filter_iff. intros r.
      unfold passes, at_site. tauto.
    + unfold booster_column. by repeat case_decide.
  - eexists. split; [reflexivity|]. cbn. split.
    + apply String.eqb_neq in Hall.
      rewrite site_mask_select, list_filter_filter. apply list_filter_iff.
      intros r. unfold passes, at_site. intuition congruence.
    + unfold booster_column. by repeat case_decide.
Qed.

Lemma update_scatter_chart_points df site rng low high :
  bounds_of df rng = Ok (PNum low, PNum high) →
  ∃ fig, update_scatter_chart df site rng = Ok fig
         ∧ scatter_data_frame fig = filter (passes site low high) (rows df)
         ∧ scatter_color fig = booster_column df.
Proof. intros Hb. by eapply update_scatter_chart_bounds. Qed.

Lemma bounds_of_list df low high :
  bounds_of df (PyList [low; high]) = Ok (low, high).
Proof. reflexivity. Qed.

Lemma bounds_of_other df rng :
  is_list_or_tuple rng = false →
  bounds_of df rng = Ok (PNum (min_payload df), PNum (max_payload df)).
Proof. unfold bounds_of. by intros ->. Qed.

Lemma in_range_not_missing {d} low high (r : LaunchRecord d) :
  in_range low high r → payload r ≠ NaN.
Proof. unfold in_range. intros [H _] Hr. by rewrite Hr in H. Qed.

Lemma in_range_nan {d} (low high : num) (r : LaunchRecord d) :
  low = NaN ∨ high = NaN → ¬ in_range low high r.
Proof.
  unfold in_range. intros [-> | ->] [Hge Hle].
  - by rewrite ge_NaN in Hge.
  - by rewrite le_NaN in Hle.
Qed.

(** ** Comparisons of numbers that float64 holds exactly *)

Lemma to_float_safe (z : Z) : (Z.abs z ≤ 2 ^ 53)%Z → pd.to_float z = z.
Proof.
  intros Hz. unfold pd.to_float.
  destruct (decide (Z.abs z = 2 ^ 53)%Z) as [Heq|Hne].
  - destruct (Z.abs_spec z) as [[_ Ha]|[_ Ha]]; rewrite Ha in Heq.
    + by subst z.
    + assert (z = - 2 ^ 53)%Z as -> by lia. done.
  - destruct (decide (z = 0%Z)) as [->|Hz0]; [done|].
    assert (Z.log2 (Z.abs z) < 53)%Z as Hlog.
    { apply Z.log2_lt_pow2; lia. }
    destruct (Z.leb_spec (Z.log2 (Z.abs z) - 52) 0); [done|lia].
Qed.

Lemma ge_safe (v x : num) :
  safe v → safe x →
  pd.ge v x = true ↔ ∃ p q, value v = Some p ∧ value x = Some q ∧ (q <= p)%Q.
Proof.
  destruct v as [a|p|], x as [b|q|]; cbn; intros Hv Hx;
    rewrite ?to_float_safe by done;
    rewrite ?Z.leb_le, ?Qle_bool_iff, ?Zle_Qle;
    try (split; [by eauto|by intros (? & ? & [= <-] & [= <-] & ?)]);
    split; try done; by intros (? & ? & ? & ? & ?).
Qed.

Lemma le_safe (v x : num) :
  safe v → safe x →
  pd.le v x = true ↔ ∃ p q, value v = Some p ∧ value x = Some q ∧ (p <= q)%Q.
Proof.
  destruct v as [a|p|], x as [b|q|]; cbn; intros Hv Hx;
    rewrite ?to_float_safe by done;
    rewrite ?Z.leb_le, ?Qle_bool_iff, ?Zle_Qle;
    try (split; [by eauto|by intros (? & ? & [= <-] & [= <-] & ?)]);
    split; try done; by intros (? & ? & ? & ? & ?).
Qed.

(** Reading the two comparisons of the mask, for numbers that float64
    holds exactly. *)
Lemma in_range_safe {d} (low high : num) (r : LaunchRecord d) :
  safe low → safe high → safe (payload r) →
  in_range low high r
  ↔ ∃ lo p hi, value low = Some lo ∧ value (payload r) = Some p
               ∧ value high = Some hi ∧ (lo <= p)%Q ∧ (p <= hi)%Q.
Proof.
  intros Hlo Hhi Hr. unfold in_range.
  rewrite (ge_safe _ _ Hr Hlo), (le_safe _ _ Hr Hhi). split.
  - intros [(p & lo & Hp & Hl & ?) (p' & hi & Hp' & Hh & ?)].
    rewrite Hp in Hp'. injection Hp' as <-. by exists lo, p, hi.
  - intros (lo & p & hi & ? & ? & ? & ? & ?). split.
    + by exists p, lo.
    + by exists p, hi.
Qed.

(** ** Minimum and maximum of a column *)

Lemma Qle_bool_false (a b : Q) : Qle_bool a b = false → (b <= a)%Q.
Proof.
  intros H. apply Qlt_le_weak, Qnot_le_lt. intros Hle.
  apply Qle_bool_iff in Hle. congruence.
Qed.

Lemma Qmin'_le_l a b : (pd.Qmin' a b <= a)%Q.
Proof.
  unfold pd.Qmin'. destruct (Qle_bool a b) eqn:E.
  - apply Qle_refl.
  - by apply Qle_bool_false.
Qed.

Lemma Qmin'_le_r a b : (pd.Qmin' a b <= b)%Q.
Proof.
  unfold pd.Qmin'. destruct (Qle_bool a b) eqn:E.
  - by apply Qle_bool_iff.
  - apply Qle_refl.
Qed.

Lemma Qmax'_ge_l a b : (a <= pd.Qmax' a b)%Q.
Proof.
  unfold pd.Qmax'. destruct (Qle_bool a b) eqn:E.
  - by apply Qle_bool_iff.
  - apply Qle_refl.
Qed.

Lemma Qmax'_ge_r a b : (b <= pd.Qmax' a b)%Q.
Proof.
  unfold pd.Qmax'. destruct (Qle_bool a b) eqn:E.
  - apply Qle_refl.
  - by apply Qle_bool_false.
Qed.

Lemma reduce_None f (s : list (option Q)) :
  pd.reduce f s = None ↔ ∀ v, v ∈ s → v = None.
Proof.
  induction s as [|v s IH]; cbn.
  - split; [|done]. by intros _ v ?%elem_of_nil.
  - destruct v as [a|].
    + split.
      * destruct (pd.reduce f s); discriminate.
      * intros H. specialize (H (Some a)). discriminate H. by left.
    + rewrite IH. split.
      * intros H v [->|?]%elem_of_cons; auto.
      * intros H v ?. apply H. by right.
Qed.

(** The reduction returns one of the numbers of the column. *)
Lemma reduce_elem_of f (s : list (option Q)) m :
  (∀ a b, f a b = a ∨ f a b = b) →
  pd.reduce f s = Some m → Some m ∈ s.
Proof.
  intros Hf. revert m. induction s as [|v s IH]; cbn; [done|]. intros m.
  destruct v as [a|]; [|intros ?; right; auto].
  destruct (pd.reduce f s) as [b|].
  - intros [= <-]. destruct (Hf a b) as [-> | ->]; [by left|right; auto].
  - intros [= <-]. by left.
Qed.

Lemma float_min_lower_bound (s : list (option Q)) m p :
  pd.reduce pd.Qmin' s = Some m → Some p ∈ s → (m <= p)%Q.
Proof.
  revert m. induction s as [|v s IH]; cbn; intros m Hm Hp.
  - by apply elem_of_nil in Hp.
  - apply elem_of_cons in Hp. destruct v as [a|].
    + destruct (pd.reduce pd.Qmin' s) as [b|] eqn:E.
      * injection Hm as <-. destruct Hp as [[= ->] | Hp].
        -- apply Qmin'_le_l.
        -- eapply Qle_trans; [apply Qmin'_le_r|]. by apply IH.
      * injection Hm as <-. destruct Hp as [[= ->] | Hp]; [apply Qle_refl|].
        apply reduce_None with (v := Some p) in E; done.
    + destruct Hp as [? | Hp]; [done|]. by apply IH.
Qed.

Lemma float_max_upper_bound (s : list (option Q)) m p :
  pd.reduce pd.Qmax' s = Some m → Some p ∈ s → (p <= m)%Q.
Proof.
  revert m. induction s as [|v s IH]; cbn; intros m Hm Hp.
  - by apply elem_of_nil in Hp.
  - apply elem_of_cons in Hp. destruct v as [a|].
    + destruct (pd.reduce pd.Qmax' s) as [b|] eqn:E.
      * injection Hm as <-. destruct Hp as [[= ->] | Hp].
        -- apply Qmax'_ge_l.
        -- eapply Qle_trans; [|apply Qmax'_ge_r]. by apply IH.
      * injection Hm as <-. destruct Hp as [[= ->] | Hp]; [apply Qle_refl|].
        apply reduce_None with (v := Some p) in E; done.
    + destruct Hp as [? | Hp]; [done|]. by apply IH.
Qed.

Lemma float_min_attained (s : list (option Q)) m :
  pd.reduce pd.Qmin' s = Some m → Some m ∈ s.
Proof.
  apply reduce_elem_of. intros a b. unfold pd.Qmin'.
  destruct (Qle_bool a b); auto.
Qed.

Lemma float_max_attained (s : list (option Q)) m :
  pd.reduce pd.Qmax' s = Some m → Some m ∈ s.
Proof.
  apply reduce_elem_of. intros a b. unfold pd.Qmax'.
  destruct (Qle_bool a b); auto.
Qed.

Lemma int_min_lower_bound (a : Z) (s : list Z) (x : Z) :
  x ∈ a :: s → (foldr Z.min a s ≤ x)%Z.
Proof.
  induction s as [|b s IH]; cbn.
  - intros ->%list_elem_of_singleton. lia.
  - rewrite !elem_of_cons. intros [Hx|[Hx|Hx]].
    + assert (foldr Z.min a s ≤ x)%Z by (apply IH, elem_of_cons; by left). lia.
    + lia.
    + assert (foldr Z.min a s ≤ x)%Z by (apply IH; by right). lia.
Qed.

Lemma int_max_upper_bound (a : Z) (s : list Z) (x : Z) :
  x ∈ a :: s → (x ≤ foldr Z.max a s)%Z.
Proof.
  induction s as [|b s IH]; cbn.
  - intros ->%list_elem_of_singleton. lia.
  - rewrite !elem_of_cons. intros [Hx|[Hx|Hx]].
    + assert (x ≤ foldr Z.max a s)%Z by (apply IH, elem_of_cons; by left). lia.
    + lia.
    + assert (x ≤ foldr Z.max a s)%Z by (apply IH; by right). lia.
Qed.

Lemma int_min_attained (a : Z) (s : list Z) : foldr Z.min a s ∈ a :: s.
Proof.
  induction s as [|b s IH]; cbn; [by left|].
  destruct (Z.min_spec b (foldr Z.min a s)) as [[_ ->]|[_ ->]].
  - right. by left.
  - apply elem_of_cons in IH as [->|?]; [by left|]. right. by right.
Qed.

Lemma int_max_attained (a : Z) (s : list Z) : foldr Z.max a s ∈ a :: s.
Proof.
  induction s as [|b s IH]; cbn; [by left|].
  destruct (Z.max_spec b (foldr Z.max a s)) as [[_ ->]|[_ ->]].
  - apply elem_of_cons in IH as [->|?]; [by left|]. right. by right.
  - right. by left.
Qed.

(** The two bounds of a column, whatever its dtype. *)
Section Bounds.
Context {d : dtype}.
Implicit Types (s : list (cell d)) (c : cell d).

Lemma min_NaN s : pd.min s = NaN ↔ ∀ c, c ∈ s → as_num c = NaN.
Proof.
  destruct d; cbn in *.
  - destruct s as [|a s]; cbn.
    + split; [|done]. by intros _ c ?%elem_of_nil.
    + split; [done|]. intros H. discriminate (H a). by left.
  - destruct (pd.reduce pd.Qmin' s) as [m|] eqn:E; cbn.
    + split; [done|]. intros H.
      apply float_min_attained in E. by specialize (H _ E).
    + split; [|done]. intros _ c Hc.
      apply reduce_None with (v := c) in E; [by subst|done].
Qed.

Lemma max_NaN s : pd.max s = NaN ↔ ∀ c, c ∈ s → as_num c = NaN.
Proof.
  destruct d; cbn in *.
  - destruct s as [|a s]; cbn.
    + split; [|done]. by intros _ c ?%elem_of_nil.
    + split; [done|]. intros H. discriminate (H a). by left.
  - destruct (pd.reduce pd.Qmax' s) as [m|] eqn:E; cbn.
    + split; [done|]. intros H.
      apply float_max_attained in E. by specialize (H _ E).
    + split; [|done]. intros _ c Hc.
      apply reduce_None with (v := c) in E; [by subst|done].
Qed.

Lemma min_attained s : pd.min s ≠ NaN → ∃ c, c ∈ s ∧ as_num c = pd.min s.
Proof.
  destruct d; cbn in *.
  - destruct s as [|a s]; cbn; [done|]. intros _.
    exists (foldr Z.min a s). split; [apply int_min_attained|done].
  - destruct (pd.reduce pd.Qmin' s) as [m|] eqn:E; cbn; [|done]. intros _.
    exists (Some m). split; [by apply float_min_attained|done].
Qed.

Lemma max_attained s : pd.max s ≠ NaN → ∃ c, c ∈ s ∧ as_num c = pd.max s.
Proof.
  destruct d; cbn in *.
  - destruct s as [|a s]; cbn; [done|]. intros _.
    exists (foldr Z.max a s). split; [apply int_max_attained|done].
  - destruct (pd.reduce pd.Qmax' s) as [m|] eqn:E; cbn; [|done]. intros _.
    exists (Some m). split; [by apply float_max_attained|done].
Qed.

(** A cell compares with the minimum of its own column as its value does:
    both have the dtype of the column. *)
Lemma min_lower_bound s c :
  c ∈ s → as_num c ≠ NaN →
  pd.ge (as_num c) (pd.min s) = true
  ∧ ∀ m p, value (pd.min s) = Some m → value (as_num c) = Some p → (m <= p)%Q.
Proof.
  destruct d; cbn in *.
  - destruct s as [|a s]; [by intros ?%elem_of_nil|]. intros Hc _. cbn.
    pose proof (int_min_lower_bound a s c Hc). split; [by apply Z.leb_le|].
    intros m p [= <-] [= <-]. by rewrite <- Zle_Qle.
  - destruct c as [p|]; [|done]. intros Hc _.
    destruct (pd.reduce pd.Qmin' s) as [m|] eqn:E; cbn.
    + pose proof (float_min_lower_bound s m p E Hc).
      split; [by apply Qle_bool_iff|]. by intros ?? [= <-] [= <-].
    + apply reduce_None with (v := Some p) in E; done.
Qed.

Lemma max_upper_bound s c :
  c ∈ s → as_num c ≠ NaN →
  pd.le (as_num c) (pd.max s) = true
  ∧ ∀ m p, value (pd.max s) = Some m → value (as_num c) = Some p → (p <= m)%Q.
Proof.
  destruct d; cbn in *.
  - destruct s as [|a s]; [by intros ?%elem_of_nil|]. intros Hc _. cbn.
    pose proof (int_max_upper_bound a s c Hc). split; [by apply Z.leb_le|].
    intros m p [= <-] [= <-]. by rewrite <- Zle_Qle.
  - destruct c as [p|]; [|done]. intros Hc _.
    destruct (pd.reduce pd.Qmax' s) as [m|] eqn:E; cbn.
    + pose proof (float_max_upper_bound s m p E Hc).
      split; [by apply Qle_bool_iff|]. by intros ?? [= <-] [= <-].
    + apply reduce_None with (v := Some p) in E; done.
Qed.

End Bounds.

(** With the dataset's own bounds the mask keeps every record that has a
    payload mass. *)
Lemma in_range_full df r :
  r ∈ rows df →
  in_range (min_payload df) (max_payload df) r ↔ payload r ≠ NaN.
Proof.
  intros Hr. split; [apply in_range_not_missing|]. intros Hp.
  assert (Payload_Mass r ∈ Payload_Mass <$> rows df) as Hin.
  { by apply list_elem_of_fmap_2. }
  unfold in_range, min_payload, max_payload, payload. split.
  - by apply min_lower_bound.
  - by apply max_upper_bound.
Qed.

(** ** Properties of the scatter chart *)


(** C5. For a selected site other than ALL, the scatter callback returns a
    figure whose points are exactly the records in the payload range that
    have that launch site: every point has launchSite equal to the site. *)
Theorem scatter_site_filter (df : DataFrame) (site : string) (low high : num) :
  site ≠ "ALL" →
  ∃ fig,
    update_scatter_chart df site (PyList [PNum low; PNum high]) = Ok fig
    ∧ (∀ r, r ∈ scatter_data_frame fig → Launch_Site r = Some site)
    ∧ (∀ r, r ∈ scatter_data_frame fig ↔
            r ∈ rows df ∧ in_range low high r ∧ Launch_Site r = Some site).
Proof.
  intros Hsite.
  destruct (update_scatter_chart_points df site _ _ _
              (bounds_of_list df (PNum low) (PNum high))) as (fig & Hfig & Hdata & _).
  exists fig. split; [done|]. rewrite Hdata.
  assert (∀ r, r ∈ filter (passes site low high) (rows df) ↔
               r ∈ rows df ∧ in_range low high r ∧ Launch_Site r = Some site) as Hiff.
  { intros r. rewrite list_elem_of_filter. unfold passes, at_site. tauto. }
  split; [|done]. intros r Hr. by apply Hiff in Hr as (_ & _ & ?).
Qed.


(** C8. The colour column of the scatter figure follows the precedence:
    'Booster Version Category' when the schema has it, else 'Booster
    Version' when the schema has it, else none at all; the callback returns
    a figure in each case. *)
Theorem scatter_color_precedence (df : DataFrame) (site : string) (low high : num) :
  ∃ fig,
    update_scatter_chart df site (PyList [PNum low; PNum high]) = Ok fig
    ∧ ("Booster Version Category" ∈ columns df →
       scatter_color fig = Some "Booster Version Category")
    ∧ ("Booster Version Category" ∉ columns df →
       "Booster Version" ∈ columns df →
       scatter_color fig = Some "Booster Version")
    ∧ ("Booster Version Category" ∉ columns df →
       "Booster Version" ∉ columns df →
       scatter_color fig = None).
Proof.
  destruct (update_scatter_chart_points df site _ _ _
              (bounds_of_list df (PNum low) (PNum high))) as (fig & Hfig & _ & Hcolor).
  exists fig. split; [done|]. rewrite Hcolor. unfold booster_column.
  repeat split; intros; by repeat case_decide.
Qed.

(** C9. For every dataset, site and bounds, the points of the scatter
    figure are the records that pass the filters, in the order the dataset
    has them: the result of one stable filter, a subsequence of the rows. *)
Theorem scatter_preserves_order (df : DataFrame) (site : string) (low high : num) :
  ∃ fig,
    update_scatter_chart df site (PyList [PNum low; PNum high]) = Ok fig
    ∧ scatter_data_frame fig = filter (passes site low high) (rows df)
    ∧ scatter_data_frame fig `sublist_of` rows df.
Proof.
  destruct (update_scatter_chart_points df site _ _ _
              (bounds_of_list df (PNum low) (PNum high))) as (fig & Hfig & Hdata & _).
  exists fig. split; [done|]. split; [done|]. rewrite Hdata. apply sublist_filter.
Qed.

(** C10. A [payload_range] that is neither a list nor a tuple does not make
    the scatter callback fail: it behaves as on the list of the dataset
    bounds [min_payload, max_payload], and its figure holds every record of
    the selected site that has a payload mass. *)
Theorem scatter_default_bounds (df : DataFrame) (site : string) (rng : pyval) :
  is_list_or_tuple rng = false →
  update_scatter_chart df site rng
    = update_scatter_chart df site
        (PyList [PNum (min_payload df); PNum (max_payload df)])
  ∧ ∃ fig,
      update_scatter_chart df site rng = Ok fig
      ∧ scatter_data_frame fig
        = filter (λ r, payload r ≠ NaN ∧ at_site site r) (rows df).
Proof.
  intros Hrng. split.
  - unfold update_scatter_chart. by rewrite Hrng.
  - destruct (update_scatter_chart_points df site _ _ _
                (bounds_of_other df rng Hrng)) as (fig & Hfig & Hdata & _).
    exists fig. split; [done|]. rewrite Hdata.
    apply filter_iff_elem_of. intros r Hr. unfold passes.
    by rewrite (in_range_full df r Hr).
Qed.

(** ** Distinct values, sums and groups *)

Section Unique.
Context `{EqDecision A}.
Implicit Types (l : list A) (x : A).

Lemma elem_of_unique l x : x ∈ pd.unique l ↔ x ∈ l.
Proof.
  induction l as [|y l IH]; [done|]. cbn [pd.unique].
  rewrite !elem_of_cons, list_elem_of_filter, IH.
  destruct (decide (x = y)); tauto.
Qed.

Lemma NoDup_unique l : NoDup (pd.unique l).
Proof.
  induction l as [|y l IH]; cbn [pd.unique]; [constructor|].
  apply NoDup_cons. split.
  - rewrite list_elem_of_filter. tauto.
  - by apply NoDup_filter.
Qed.

Lemma unique_sublist l : pd.unique l `sublist_of` l.
Proof.
  induction l as [|x l IH]; [done|]. cbn [pd.unique].
  apply sublist_skip. etrans; [apply sublist_filter|done].
Qed.

(** A value appended to the column comes last among the distinct values,
    or not at all when the column had it. *)
Lemma unique_snoc l x :
  pd.unique (l ++ [x]) = (pd.unique l ++ (if decide (x ∈ l) then [] else [x]))%list.
Proof.
  induction l as [|y l IH]; [done|]. cbn [app pd.unique]. rewrite IH.
  rewrite filter_app. cbn [app]. f_equal. f_equal.
  destruct (decide (x ∈ l)) as [Hl|Hl], (decide (x ∈ y :: l)) as [Hyl|Hyl];
    try done.
  - destruct Hyl. by right.
  - apply elem_of_cons in Hyl as [->|?]; [|done].
    by rewrite filter_cons_False by (intros ?; done).
  - apply not_elem_of_cons in Hyl as [? _]. by rewrite filter_cons_True.
Qed.

End Unique.

(** The distinct values of a column with missing cells: the distinct
    present values, and the missing value when some cell is missing. *)
Lemma unique_missing_length `{EqDecision A} (l : list (option A)) :
  length (pd.unique l)
  = (length (pd.unique (omap id l)) + (if decide (None ∈ l) then 1 else 0))%nat.
Proof.
  assert (pd.unique l
          ≡ₚ (Some <$> pd.unique (omap id l))
             ++ (if decide (None ∈ l) then [None] else [])) as ->.
  { apply NoDup_Permutation.
    - apply NoDup_unique.
    - apply NoDup_app. split; [|split].
      + apply NoDup_fmap_2; [apply _|apply NoDup_unique].
      + intros x (y & -> & _)%list_elem_of_fmap. case_decide; [|apply not_elem_of_nil].
        by intros ?%list_elem_of_singleton.
      + case_decide; [apply NoDup_singleton|constructor].
    - intros x. rewrite elem_of_unique, elem_of_app, list_elem_of_fmap. split.
      + intros Hx. destruct x as [a|].
        * left. exists a. split; [done|]. apply elem_of_unique, list_elem_of_omap.
          by exists (Some a).
        * right. rewrite decide_True by done. by left.
      + intros [(a & -> & Ha)|Hx].
        * apply elem_of_unique, list_elem_of_omap in Ha as ([b|] & Hb & [=]).
          by subst.
        * case_decide; [|by apply elem_of_nil in Hx].
          by apply list_elem_of_singleton in Hx as ->. }
  rewrite length_app, length_fmap. by case_decide.
Qed.

Lemma omap_fmap_id {A B} (f : A → option B) (l : list A) :
  omap f l = omap id (f <$> l).
Proof. induction l as [|x l IH]; cbn; [done|]. rewrite IH. by destruct (f x). Qed.

(** The sum of an int64 Series is the exact sum, wrapped around. *)
Lemma wrap64_add_r (a b : Z) : pd.wrap64 (a + pd.wrap64 b) = pd.wrap64 (a + b).
Proof.
  unfold pd.wrap64. f_equal.
  replace (a + ((b + 2 ^ 63) mod 2 ^ 64 - 2 ^ 63) + 2 ^ 63)%Z
    with (a + (b + 2 ^ 63) mod 2 ^ 64)%Z by lia.
  rewrite Zplus_mod_idemp_r. f_equal. lia.
Qed.

Lemma wrap64_small (z : Z) : (- 2 ^ 63 ≤ z < 2 ^ 63)%Z → pd.wrap64 z = z.
Proof. intros Hz. unfold pd.wrap64. rewrite Z.mod_small; lia. Qed.

Lemma sum_total (l : list Z) : pd.sum l = pd.wrap64 (total l).
Proof.
  induction l as [|x l IH]; [done|]. cbn [pd.sum total foldr].
  fold (pd.sum l) (total l). rewrite IH. unfold pd.add64. apply wrap64_add_r.
Qed.

Lemma total_app (l k : list Z) : total (l ++ k) = (total l + total k)%Z.
Proof. induction l as [|x l IH]; cbn; [done|]. fold (total (l ++ k)) (total l). lia. Qed.

Lemma total_Permutation (l k : list Z) : l ≡ₚ k → total l = total k.
Proof. unfold total. induction 1; cbn; lia. Qed.

(** In a list of classes 0 and 1 the exact sum counts the ones. *)
Lemma total_class_binary {d} (rs : list (LaunchRecord d)) :
  (∀ r, r ∈ rs → class r = 0%Z ∨ class r = 1%Z) →
  total (class <$> rs) = Z.of_nat (length (filter (λ r, class r = 1%Z) rs)).
Proof.
  induction rs as [|r rs IH]; intros Hbin; [done|].
  rewrite fmap_cons, filter_cons. cbn [total foldr]. fold (total (class <$> rs)).
  rewrite IH by (intros r' ?; apply Hbin; by right).
  destruct (Hbin r) as [Hc|Hc]; [by left|..]; rewrite Hc.
  - rewrite decide_False by done. lia.
  - rewrite decide_True by done. cbn [length]. lia.
Qed.

Section Groups.
Context {A : Type} (key : A → option string) (val : A → Z).
Implicit Types (rs : list A) (keys : list string).

(** Exact sum of [val] over the group of key [k]. *)
Local Abbreviation group_total rs k :=
  (total (val <$> filter (λ r, key r = Some k) rs)).

Lemma group_sum_total rs k :
  pd.group_sum key val rs k = pd.wrap64 (group_total rs k).
Proof. unfold pd.group_sum. apply sum_total. Qed.

Lemma total_fmap_plus (f g : string → Z) keys :
  total ((λ k, f k + g k)%Z <$> keys)
  = (total (f <$> keys) + total (g <$> keys))%Z.
Proof. unfold total. induction keys as [|k keys IH]; cbn; [done|]. lia. Qed.

Lemma total_indicator_absent (x : string) (v : Z) keys :
  x ∉ keys → total ((λ k, if decide (x = k) then v else 0%Z) <$> keys) = 0%Z.
Proof.
  unfold total. induction keys as [|k keys IH]; cbn; [done|].
  intros [? ?]%not_elem_of_cons. rewrite IH by done. by case_decide.
Qed.

Lemma total_indicator (x : string) (v : Z) keys :
  NoDup keys → x ∈ keys →
  total ((λ k, if decide (x = k) then v else 0%Z) <$> keys) = v.
Proof.
  induction 1 as [|k keys Hk Hnd IH]; [by intros ?%elem_of_nil|].
  cbn. fold (total ((λ k, if decide (x = k) then v else 0%Z) <$> keys)).
  intros [-> | Hx]%elem_of_cons.
  - rewrite total_indicator_absent by done. case_decide; [lia|done].
  - rewrite IH by done. case_decide; [|lia]. by subst.
Qed.

Lemma total_zeros keys : total ((λ _, 0%Z) <$> keys) = 0%Z.
Proof. unfold total. induction keys as [|k keys IH]; cbn; [done|]. lia. Qed.

(** Every row with a key falls in exactly one group: the group sums add
    up to the sum over the rows that have a key. *)
Lemma total_group_totals rs keys :
  NoDup keys → (∀ r k, r ∈ rs → key r = Some k → k ∈ keys) →
  total ((λ k, group_total rs k) <$> keys)
  = total (val <$> filter (λ r, key r ≠ None) rs).
Proof.
  intros Hnd. induction rs as [|r rs IH]; intros Hin.
  - cbn. apply total_zeros.
  - assert (total ((λ k, group_total rs k) <$> keys)
            = total (val <$> filter (λ r, key r ≠ None) rs)) as IH'.
    { apply IH. intros r' k ?. apply Hin. by right. }
    rewrite (list_fmap_ext (λ k, group_total (r :: rs) k)
               (λ k, (if decide (key r = Some k) then val r else 0)
                     + group_total rs k)%Z keys).
    2:{ intros _ k _. rewrite filter_cons. by case_decide. }
    rewrite (total_fmap_plus (λ k, if decide (key r = Some k) then val r else 0%Z)
               (λ k, group_total rs k)), IH', filter_cons.
    destruct (key r) as [k0|] eqn:Hk.
    + rewrite decide_True by done. cbn [fmap list_fmap total foldr].
      fold (total (val <$> filter (λ r, key r ≠ None) rs)).
      rewrite (list_fmap_ext _ (λ k, if decide (k0 = k) then val r else 0%Z) keys).
      2:{ intros _ k _. destruct (decide (k0 = k)) as [->|?].
          - by rewrite decide_True.
          - rewrite decide_False; [done|]. by intros [= ?]. }
      rewrite total_indicator; [done|done|]. eapply Hin; [by left|done].
    + rewrite decide_False by (intros H; by apply H).
      rewrite (list_fmap_ext _ (λ _, 0%Z) keys) by done.
      rewrite total_zeros. lia.
Qed.

Lemma groupby_sum_keys rs :
  (pd.groupby_sum key val rs).*1 = merge_sort String.le (pd.unique (omap key rs)).
Proof.
  unfold pd.groupby_sum. rewrite <- list_fmap_compose.
  induction (merge_sort _ _) as [|k l IH]; cbn; [done|]. by f_equal.
Qed.

Lemma groupby_sum_vals rs :
  (pd.groupby_sum key val rs).*2
  = pd.group_sum key val rs <$> merge_sort String.le (pd.unique (omap key rs)).
Proof. unfold pd.groupby_sum. by rewrite <- list_fmap_compose. Qed.

Lemma groupby_sum_NoDup rs : NoDup (pd.groupby_sum key val rs).*1.
Proof.
  rewrite groupby_sum_keys. rewrite merge_sort_Permutation. apply NoDup_unique.
Qed.

Lemma groupby_sum_elem_of_keys rs k :
  k ∈ (pd.groupby_sum key val rs).*1 ↔ Some k ∈ key <$> rs.
Proof.
  rewrite groupby_sum_keys, merge_sort_Permutation, elem_of_unique.
  rewrite list_elem_of_omap, list_elem_of_fmap.
  split; intros (r & ? & ?); by exists r.
Qed.

Lemma groupby_sum_elem_of rs k n :
  (k, n) ∈ pd.groupby_sum key val rs
  ↔ Some k ∈ key <$> rs ∧ n = pd.group_sum key val rs k.
Proof.
  rewrite <- groupby_sum_elem_of_keys.
  unfold pd.groupby_sum at 1. rewrite list_elem_of_fmap. split.
  - intros (k' & [= -> ->] & Hk). split; [|done].
    by rewrite groupby_sum_keys.
  - intros [Hk ->]. exists k. split; [done|]. by rewrite groupby_sum_keys in Hk.
Qed.

Lemma groupby_sum_length rs :
  length (pd.groupby_sum key val rs) = length (pd.unique (omap key rs)).
Proof.
  unfold pd.groupby_sum. by rewrite length_fmap, merge_sort_Permutation.
Qed.

(** When no group sum wraps around, the sums add up to the sum over the
    rows that have a key. *)
Lemma groupby_sum_total rs :
  (∀ k, pd.wrap64 (group_total rs k) = group_total rs k) →
  total (pd.groupby_sum key val rs).*2
  = total (val <$> filter (λ r, key r ≠ None) rs).
Proof.
  intros Hfit. rewrite groupby_sum_vals.
  rewrite (list_fmap_ext (pd.group_sum key val rs) (λ k, group_total rs k))
    by (intros; by rewrite group_sum_total, Hfit).
  rewrite (total_Permutation _ ((λ k, group_total rs k) <$> pd.unique (omap key rs))).
  - apply total_group_totals; [apply NoDup_unique|].
    intros r k Hr Hk. apply elem_of_unique, list_elem_of_omap. by exists r.
  - apply fmap_Permutation, merge_sort_Permutation.
Qed.

End Groups.

(** ** Value counts, renamed and reindexed *)

Section Get.
Context {V : Type}.
Implicit Types (d : list (label * V)) (k : label) (v : V).

Lemma get_Some_elem_of d k v : pd.get d k = Some v → (k, v) ∈ d.
Proof.
  induction d as [|[k' v'] d IH]; cbn; [done|].
  case_decide as Hk.
  - intros [= ->]. subst. by left.
  - intros ?. right. auto.
Qed.

Lemma get_None d k : pd.get d k = None ↔ k ∉ d.*1.
Proof.
  induction d as [|[k' v'] d IH]; cbn.
  - split; [|done]. intros _ ?%elem_of_nil. done.
  - rewrite not_elem_of_cons, <- IH. case_decide as Hk.
    + split; [done|]. by intros [? _].
    + split; [by intros ?|]. by intros [_ ?].
Qed.

Lemma elem_of_get_Some d k v : NoDup d.*1 → (k, v) ∈ d → pd.get d k = Some v.
Proof.
  induction d as [|[k' v'] d IH]; cbn; [by intros _ ?%elem_of_nil|].
  intros [Hk' Hnd]%NoDup_cons [[= -> ->] | Hin]%elem_of_cons.
  - by case_decide.
  - case_decide as Hk; [|by apply IH]. subst. exfalso. apply Hk'.
    by apply (list_elem_of_fmap_2 fst) in Hin.
Qed.

End Get.

Lemma renamed_inj (y z : Z) : renamed (LInt y) = renamed (LInt z) → y = z.
Proof.
  unfold renamed, outcome_names. cbn.
  repeat case_decide; simplify_eq; cbn; intros; simplify_eq; done.
Qed.

Lemma count_absent (z : Z) (l : list Z) : z ∉ l → pd.count z l = 0%Z.
Proof.
  intros Hz. unfold pd.count. rewrite filter_none; [done|].
  intros y Hy ->. done.
Qed.

(** The counts as a list up to order, before the sort by frequency. *)
Lemma value_counts_Permutation (l : list Z) :
  pd.value_counts l ≡ₚ (λ z, (LInt z, pd.count z l)) <$> pd.unique l.
Proof. apply merge_sort_Permutation. Qed.

Lemma rename_value_counts_Permutation (l : list Z) :
  pd.rename outcome_names (pd.value_counts l)
  ≡ₚ (λ z, (renamed (LInt z), pd.count z l)) <$> pd.unique l.
Proof.
  unfold pd.rename. rewrite value_counts_Permutation, <- list_fmap_compose.
  done.
Qed.

Lemma rename_value_counts_NoDup (l : list Z) :
  NoDup (pd.rename outcome_names (pd.value_counts l)).*1.
Proof.
  rewrite rename_value_counts_Permutation, <- list_fmap_compose.
  apply NoDup_fmap_2_strong; [|apply NoDup_unique].
  intros y z _ _. apply renamed_inj.
Qed.

(** Looking a renamed outcome up gives its number of occurrences, whether
    the outcome occurs or not. *)
Lemma rename_value_counts_get (l : list Z) (z : Z) :
  default 0%Z (pd.get (pd.rename outcome_names (pd.value_counts l)) (renamed (LInt z)))
  = pd.count z l.
Proof.
  destruct (decide (z ∈ l)) as [Hz|Hz].
  - rewrite (elem_of_get_Some _ _ (pd.count z l)); [done|..].
    + apply rename_value_counts_NoDup.
    + rewrite rename_value_counts_Permutation.
      apply (list_elem_of_fmap_2' _ _ z); [|done]. by apply elem_of_unique.
  - rewrite count_absent by done.
    destruct (pd.get _ _) as [v|] eqn:E; [|done]. exfalso.
    apply get_Some_elem_of in E.
    rewrite rename_value_counts_Permutation in E.
    apply list_elem_of_fmap in E as (y & [= Hy _] & Hin).
    apply renamed_inj in Hy as ->. by rewrite elem_of_unique in Hin.
Qed.

Lemma reindex_outcomes (l : list Z) :
  pd.reindex [LStr "Success"; LStr "Failure"] 0
    (pd.rename outcome_names (pd.value_counts l))
  = Ok [(LStr "Success", pd.count 1 l); (LStr "Failure", pd.count 0 l)].
Proof.
  unfold pd.reindex. rewrite decide_True by apply rename_value_counts_NoDup.
  pose proof (rename_value_counts_get l 1) as H1.
  pose proof (rename_value_counts_get l 0) as H0.
  change (renamed (LInt 1)) with (LStr "Success") in H1.
  change (renamed (LInt 0)) with (LStr "Failure") in H0.
  cbn [fmap list_fmap]. by rewrite H1, H0.
Qed.

(** ** The pie callback *)

Lemma count_class_at_site (df : DataFrame) (site : string) (c : Z) :
  pd.count c (class <$> filter (λ r, Launch_Site r = Some site) (rows df))
  = outcome_count df site c.
Proof.
  unfold pd.count, outcome_count. f_equal.
  induction (rows df) as [|r rs IH]; [done|].
  rewrite !filter_cons.
  destruct (decide (Launch_Site r = Some site)) as [Hs|Hs].
  - rewrite fmap_cons, filter_cons.
    destruct (decide (class r = c)) as [Hc|Hc].
    + rewrite decide_True by done. cbn. by rewrite IH.
    + rewrite decide_False by tauto. done.
  - rewrite decide_False by tauto. done.
Qed.

(** For a selection other than ALL the callback returns the figure of the
    two outcome counts of the site. *)
Lemma update_pie_chart_site (df : DataFrame) (site : string) :
  site ≠ "ALL" →
  update_pie_chart df site
  = Ok {| pie_data_frame := [(LStr "Success", outcome_count df site 1);
                             (LStr "Failure", outcome_count df site 0)];
          pie_names := "result";
          pie_values := "count";
          pie_title := "Success vs. Failure for site: " +:+ site;
          pie_textinfo := "percent+label";
          pie_margin := mkMargin 50 20 20 20 |}.
Proof.
  intros Hsite%String.eqb_neq. unfold update_pie_chart. rewrite Hsite.
  rewrite site_mask_select. fold outcome_names.
  rewrite reindex_outcomes, !count_class_at_site. done.
Qed.

Lemma update_pie_chart_all (df : DataFrame) :
  update_pie_chart df "ALL"
  = Ok {| pie_data_frame :=
            (λ kv, (LStr kv.1, kv.2)) <$> pd.groupby_sum Launch_Site class (rows df);
          pie_names := "Launch Site";
          pie_values := "class";
          pie_title := "Total Successful Launches by Site";
          pie_textinfo := "percent+label";
          pie_margin := mkMargin 50 20 20 20 |}.
Proof. reflexivity. Qed.

Lemma pie_all_labels (g : list (string * Z)) :
  ((λ kv : string * Z, (LStr kv.1, kv.2)) <$> g).*1 = LStr <$> g.*1.
Proof. by rewrite <- !list_fmap_compose. Qed.

Lemma pie_all_values (g : list (string * Z)) :
  ((λ kv : string * Z, (LStr kv.1, kv.2)) <$> g).*2 = g.*2.
Proof. by rewrite <- !list_fmap_compose. Qed.

Lemma outcome_count_unknown (df : DataFrame) (site : string) (c : Z) :
  Some site ∉ Launch_Site <$> rows df → outcome_count df site c = 0%Z.
Proof.
  intros Hsite. unfold outcome_count. rewrite filter_none; [done|].
  intros r Hr [Hs _]. apply Hsite. rewrite <- Hs. by apply list_elem_of_fmap_2.
Qed.

Lemma outcome_counts_add_up (df : DataFrame) (site : string) :
  binary df →
  (outcome_count df site 1 + outcome_count df site 0)%Z = site_count df site.
Proof.
  unfold binary, outcome_count, site_count.
  induction (rows df) as [|r rs IH]; intros Hbin; [done|].
  assert (∀ r', r' ∈ rs → class r' = 0%Z ∨ class r' = 1%Z) as Hrs.
  { intros r' ?. apply Hbin. by right. }
  specialize (IH Hrs). rewrite !filter_cons.
  destruct (decide (Launch_Site r = Some site)) as [Hs|Hs].
  - destruct (Hbin r) as [Hc|Hc]; [by left|..].
    + rewrite decide_False by (rewrite Hc; intros [_ [=]]).
      rewrite decide_True by done. cbn [length]. lia.
    + rewrite decide_True by done.
      rewrite decide_False by (rewrite Hc; intros [_ [=]]). cbn [length]. lia.
  - rewrite !decide_False by tauto. done.
Qed.

Lemma outcome_counts_sum (df : DataFrame) (s : string) :
  (outcome_count df s 1 + outcome_count df s 0)%Z
  = Z.of_nat (length (filter (λ r, Launch_Site r = Some s
                                   ∧ (class r = 0%Z ∨ class r = 1%Z)) (rows df))).
Proof.
  unfold outcome_count. induction (rows df) as [|r rs IH]; [done|].
  rewrite !filter_cons.
  destruct (decide (Launch_Site r = Some s ∧ class r = 1%Z)) as [[Hs H1]|H1],
           (decide (Launch_Site r = Some s ∧ class r = 0%Z)) as [[Hs' H0]|H0].
  - congruence.
  - rewrite decide_True by tauto. cbn [length]. lia.
  - rewrite decide_True by tauto. cbn [length]. lia.
  - rewrite decide_False by tauto. lia.
Qed.

Lemma site_count_positive (df : DataFrame) (s : string) :
  Some s ∈ Launch_Site <$> rows df → (1 ≤ site_count df s)%Z.
Proof.
  intros (r & Hs & Hr)%list_elem_of_fmap. unfold site_count.
  assert (r ∈ filter (λ r', Launch_Site r' = Some s) (rows df)) as Hin.
  { by apply list_elem_of_filter. }
  destruct (filter _ _); [by apply elem_of_nil in Hin|]. cbn [length]. lia.
Qed.

(** In a dataset of classes 0 and 1 the exact sum of a group counts the
    successful launches of the site, and does not wrap around when the
    dataset has fewer than 2^63 records. *)
Lemma group_total_binary (df : DataFrame) (s : string) :
  binary df →
  total (class <$> filter (λ r, Launch_Site r = Some s) (rows df))
  = outcome_count df s 1.
Proof.
  intros Hbin. unfold outcome_count. rewrite total_class_binary.
  - rewrite list_filter_filter. do 2 f_equal. apply list_filter_iff.
    intros r. tauto.
  - intros r [_ Hr]%list_elem_of_filter. by apply Hbin.
Qed.

Lemma outcome_count_bounds (df : DataFrame) (s : string) (c : Z) :
  (0 ≤ outcome_count df s c ≤ Z.of_nat (length (rows df)))%Z.
Proof.
  unfold outcome_count. pose proof (length_filter
    (λ r, Launch_Site r = Some s ∧ class r = c) (rows df)). lia.
Qed.

Lemma group_sum_binary (df : DataFrame) (s : string) :
  binary df → (Z.of_nat (length (rows df)) < 2 ^ 63)%Z →
  pd.group_sum Launch_Site class (rows df) s = outcome_count df s 1.
Proof.
  intros Hbin Hlen. rewrite group_sum_total, group_total_binary by done.
  apply wrap64_small. pose proof (outcome_count_bounds df s 1). lia.
Qed.

Lemma groupby_sum_total_binary (df : DataFrame) :
  binary df → (Z.of_nat (length (rows df)) < 2 ^ 63)%Z →
  total (pd.groupby_sum Launch_Site class (rows df)).*2 = success_count df.
Proof.
  intros Hbin Hlen. rewrite groupby_sum_total.
  - unfold success_count. rewrite total_class_binary.
    + rewrite list_filter_filter. done.
    + intros r [_ Hr]%list_elem_of_filter. by apply Hbin.
  - intros k. rewrite group_total_binary by done.
    apply wrap64_small. pose proof (outcome_count_bounds df k 1). lia.
Qed.

(** ** Properties of the pie chart *)

(** C1, as the code has it. For a selection that is neither ALL nor the
    launch site of any record, neither callback raises; the scatter figure
    has no point, and the pie figure has the two pairs ("Success", 0) and
    ("Failure", 0), the reindexing of the source filling both counts with
    0. *)
Theorem unknown_site_charts (df : DataFrame) (site : string) :
  site ≠ "ALL" →
  Some site ∉ Launch_Site <$> rows df →
  (∃ fig, update_pie_chart df site = Ok fig
          ∧ pie_data_frame fig = [(LStr "Success", 0%Z); (LStr "Failure", 0%Z)])
  ∧ (∀ low high, ∃ fig,
        update_scatter_chart df site (PyList [PNum low; PNum high]) = Ok fig
        ∧ scatter_data_frame fig = [])
  ∧ (∀ rng, is_list_or_tuple rng = false → ∃ fig,
        update_scatter_chart df site rng = Ok fig
        ∧ scatter_data_frame fig = []).
Proof.
  intros Hall Hsite.
  assert (∀ low high, filter (passes site low high) (rows df) = []) as Hnone.
  { intros low high. apply filter_none. intros r Hr [_ [?| Hs]]; [done|].
    apply Hsite. rewrite <- Hs. by apply list_elem_of_fmap_2. }
  split; [|split].
  - eexists. split; [by apply update_pie_chart_site|]. cbn.
    by rewrite !outcome_count_unknown.
  - intros low high.
    destruct (update_scatter_chart_points df site _ _ _
                (bounds_of_list df (PNum low) (PNum high))) as (fig & Hfig & Hdata & _).
    exists fig. by rewrite Hdata, Hnone.
  - intros rng Hrng.
    destruct (update_scatter_chart_points df site _ _ _
                (bounds_of_other df rng Hrng)) as (fig & Hfig & Hdata & _).
    exists fig. by rewrite Hdata, Hnone.
Qed.

(** C2, as the code has it. For every selected site other than the string
    ALL the pie callback returns exactly the two pairs ("Success", number of
    the site's records of class 1) and ("Failure", number of the site's
    records of class 0), in this order, a count being 0 when the site has
    no record of that class; in a dataset whose classes are all 0 or 1 the
    two counts add up to the number of records of the site. *)
Theorem pie_site_counts (df : DataFrame) (s : string) :
  s ≠ "ALL" →
  ∃ fig,
    update_pie_chart df s = Ok fig
    ∧ pie_data_frame fig = [(LStr "Success", outcome_count df s 1);
                            (LStr "Failure", outcome_count df s 0)]
    ∧ (binary df →
       (outcome_count df s 1 + outcome_count df s 0)%Z = site_count df s).
Proof.
  intros Hs. eexists. split; [by apply update_pie_chart_site|].
  split; [done|]. apply outcome_counts_add_up.
Qed.

(** C6. In a dataset that keeps the invariants of the data model (every
    record has a launch site, every class is 0 or 1) and has fewer than
    2^63 records, the pie callback returns with the selection ALL one pair
    per distinct launch site, labelled with the site, whose count is the
    sum of the classes of the records of that site, that is the number of
    its successful launches; the counts add up to the sum of the classes
    of the whole dataset, the number of its successful launches. *)
Theorem pie_all_sites (df : DataFrame) :
  no_missing_site df →
  binary df →
  (Z.of_nat (length (rows df)) < 2 ^ 63)%Z →
  ∃ fig,
    update_pie_chart df "ALL" = Ok fig
    ∧ NoDup (pie_data_frame fig).*1
    ∧ (∀ l, l ∈ (pie_data_frame fig).*1 ↔
            ∃ site, l = LStr site ∧ Some site ∈ Launch_Site <$> rows df)
    ∧ (∀ l n, (l, n) ∈ pie_data_frame fig →
              ∃ site, l = LStr site
                      ∧ n = total (class <$> filter (λ r, Launch_Site r = Some site)
                                                    (rows df))
                      ∧ n = outcome_count df site 1)
    ∧ total (pie_data_frame fig).*2 = total (class <$> rows df)
    ∧ total (pie_data_frame fig).*2
      = Z.of_nat (length (filter (λ r, class r = 1%Z) (rows df))).
Proof.
  intros Hsites Hbin Hlen.
  eexists. split; [apply update_pie_chart_all|]. cbn [pie_data_frame].
  rewrite pie_all_labels, pie_all_values.
  assert (filter (λ r, class r = 1%Z ∧ Launch_Site r ≠ None) (rows df)
          = filter (λ r, class r = 1%Z) (rows df)) as Hfilter.
  { apply filter_iff_elem_of. intros r Hr. specialize (Hsites r Hr). tauto. }
  assert (total (pd.groupby_sum Launch_Site class (rows df)).*2
          = Z.of_nat (length (filter (λ r, class r = 1%Z) (rows df)))) as Htotal.
  { rewrite groupby_sum_total_binary by done. unfold success_count.
    by rewrite Hfilter. }
  split; [|split; [|split; [|split]]].
  - apply NoDup_fmap_2; [by intros ?? [=]|]. apply groupby_sum_NoDup.
  - intros l. rewrite list_elem_of_fmap. split.
    + intros (site & -> & Hin). exists site. split; [done|].
      by apply groupby_sum_elem_of_keys in Hin.
    + intros (site & -> & Hin). exists site. split; [done|].
      by apply groupby_sum_elem_of_keys.
  - intros l n ([site n'] & [= -> ->] & Hin)%list_elem_of_fmap.
    exists site. split; [done|].
    apply groupby_sum_elem_of in Hin as [_ ->].
    rewrite group_sum_binary by done. split; [|done].
    symmetry. by apply group_total_binary.
  - rewrite Htotal. symmetry. by apply total_class_binary.
  - done.
Qed.

(** ** The controls of the layout *)

(** C3, as the code has it. The payload slider runs from the constants 0 to
    10000 in steps of 1000, whatever the dataset holds; its default
    selection is the pair (minimum, maximum) of the payload masses of the
    dataset, each a payload mass of some record that bounds all the others;
    the dropdown starts at ALL. *)
Theorem slider_bounds (df : DataFrame) :
  rs_min (payload_slider df) = 0%Q
  ∧ rs_max (payload_slider df) = 10000%Q
  ∧ rs_step (payload_slider df) = 1000%Q
  ∧ rs_value (payload_slider df) = [min_payload df; max_payload df]
  ∧ (∀ m, value (min_payload df) = Some m →
          (∃ r, r ∈ rows df ∧ value (payload r) = Some m)
          ∧ ∀ r p, r ∈ rows df → value (payload r) = Some p → (m <= p)%Q)
  ∧ (∀ m, value (max_payload df) = Some m →
          (∃ r, r ∈ rows df ∧ value (payload r) = Some m)
          ∧ ∀ r p, r ∈ rows df → value (payload r) = Some p → (p <= m)%Q)
  ∧ dd_value (site_dropdown df) = "ALL".
Proof.
  do 4 (split; [done|]). split; [|split; [|done]].
  - intros m Hm. split.
    + destruct (min_attained (Payload_Mass <$> rows df)) as (c & Hc & Hmin).
      { intros H. unfold min_payload in Hm. by rewrite H in Hm. }
      apply list_elem_of_fmap in Hc as (r & -> & Hr). exists r.
      split; [done|]. unfold payload. by rewrite Hmin.
    + intros r p Hr Hp.
      eapply (min_lower_bound (Payload_Mass <$> rows df) (Payload_Mass r)); eauto.
      * by apply list_elem_of_fmap_2.
      * intros H. unfold payload in Hp. by rewrite H in Hp.
  - intros m Hm. split.
    + destruct (max_attained (Payload_Mass <$> rows df)) as (c & Hc & Hmax).
      { intros H. unfold max_payload in Hm. by rewrite H in Hm. }
      apply list_elem_of_fmap in Hc as (r & -> & Hr). exists r.
      split; [done|]. unfold payload. by rewrite Hmax.
    + intros r p Hr Hp.
      eapply (max_upper_bound (Payload_Mass <$> rows df) (Payload_Mass r)); eauto.
      * by apply list_elem_of_fmap_2.
      * intros H. unfold payload in Hp. by rewrite H in Hp.
Qed.

(** ** Further properties of the layout *)

(** X1. The options of the site dropdown are the option "All Sites" with
    value ALL, followed by one option per launch site, label and value both
    the site: every launch site of the dataset is offered, none twice, and
    in the order the dataset has them. *)
Theorem dropdown_options (df : DataFrame) :
  ∃ sites,
    dd_options (site_dropdown df)
    = mkOption (Some "All Sites") (Some "ALL") :: ((λ s, mkOption s s) <$> sites)
    ∧ NoDup sites
    ∧ (∀ s, s ∈ sites ↔ s ∈ Launch_Site <$> rows df)
    ∧ sites `sublist_of` (Launch_Site <$> rows df).
Proof.
  exists (pd.unique (Launch_Site <$> rows df)). split; [done|].
  split; [apply NoDup_unique|]. split; [apply elem_of_unique|].
  apply unique_sublist.
Qed.

(** X2. A record appended to the dataset changes the options of the site
    dropdown at the end only: nothing when its launch site was there, one
    more option, the last, when it is new. *)
Theorem dropdown_options_append (df : DataFrame) (r : LaunchRecord (payload_dtype df)) :
  dd_options (site_dropdown (append_record df r))
  = (dd_options (site_dropdown df)
     ++ (if decide (Launch_Site r ∈ Launch_Site <$> rows df) then []
         else [mkOption (Launch_Site r) (Launch_Site r)]))%list.
Proof.
  unfold site_dropdown, append_record. cbn [dd_options rows].
  rewrite fmap_app. cbn [fmap list_fmap]. fold (fmap (Launch_Site (d:=payload_dtype df)) (rows df)).
  rewrite unique_snoc, fmap_app, <- (assoc_L (++)). f_equal. f_equal.
  by destruct (decide _).
Qed.

(** X11. The two payload bounds computed at start-up are NaN together,
    exactly when no record has a payload mass; otherwise both are numbers
    and the minimum is at most the maximum. *)
Theorem payload_bounds_ordered (df : DataFrame) :
  (min_payload df = NaN ↔ ∀ r, r ∈ rows df → payload r = NaN)
  ∧ (max_payload df = NaN ↔ min_payload df = NaN)
  ∧ (∀ lo hi, value (min_payload df) = Some lo → value (max_payload df) = Some hi →
              (lo <= hi)%Q).
Proof.
  assert ((∀ c, c ∈ Payload_Mass <$> rows df → as_num c = NaN)
          ↔ ∀ r, r ∈ rows df → payload r = NaN) as Hcells.
  { split.
    - intros H r Hr. apply H. by apply list_elem_of_fmap_2.
    - intros H c (r & -> & Hr)%list_elem_of_fmap. by apply H. }
  split; [|split].
  - unfold min_payload. by rewrite min_NaN.
  - unfold max_payload, min_payload. by rewrite max_NaN, min_NaN.
  - intros lo hi Hlo Hhi.
    destruct (min_attained (Payload_Mass <$> rows df)) as (c & Hc & Hmin).
    { intros H. unfold min_payload in Hlo. by rewrite H in Hlo. }
    eapply (max_upper_bound (Payload_Mass <$> rows df) c); eauto.
    + rewrite Hmin. intros H. unfold min_payload in Hlo. by rewrite H in Hlo.
    + by rewrite Hmin.
Qed.

(** ** Further properties of the pie chart *)

(** X3. The pie callback never raises, whatever is selected and whatever
    the dataset holds (the reindexed counts never have a duplicate label):
    it returns a figure annotated with percent and label; that figure has
    two slices for a selection other than ALL; for ALL it has one slice per
    site option of the dropdown, but none for the option of the missing
    site, which the dropdown has when a record has no launch site. *)
Theorem update_pie_chart_returns (df : DataFrame) (site : string) :
  ∃ fig,
    update_pie_chart df site = Ok fig
    ∧ pie_textinfo fig = "percent+label"
    ∧ pie_margin fig = mkMargin 50 20 20 20
    ∧ (site ≠ "ALL" → length (pie_data_frame fig) = 2)
    ∧ (site = "ALL" →
       (S (length (pie_data_frame fig))
        + (if decide (None ∈ Launch_Site <$> rows df) then 1 else 0))%nat
       = length (dd_options (site_dropdown df))).
Proof.
  destruct (decide (site = "ALL")) as [->|Hsite].
  - eexists. split; [apply update_pie_chart_all|]. cbn.
    do 2 (split; [done|]). split; [done|]. intros _.
    rewrite !length_fmap, groupby_sum_length, unique_missing_length.
    by rewrite omap_fmap_id.
  - eexists. split; [by apply update_pie_chart_site|]. cbn.
    do 2 (split; [done|]). split; done.
Qed.

(** X9. With the selection ALL the slices of the pie come in ascending
    order of the site name, not in the order of the dataset: every label is
    at most every later one. *)
Theorem pie_all_sorted (df : DataFrame) :
  ∃ fig sites,
    update_pie_chart df "ALL" = Ok fig
    ∧ (pie_data_frame fig).*1 = LStr <$> sites
    ∧ StronglySorted String.le sites.
Proof.
  eexists. exists (pd.groupby_sum Launch_Site class (rows df)).*1.
  split; [apply update_pie_chart_all|]. cbn [pie_data_frame]. split.
  - apply pie_all_labels.
  - rewrite groupby_sum_keys. apply (StronglySorted_merge_sort _).
Qed.

(** X15. In a dataset whose classes are all 0 or 1 (and of fewer than 2^63
    records), the counts of the pie for ALL add up to the number of records
    of class 1 that have a launch site: the successful launches its title
    announces, but for the records whose launch site is missing. *)
Theorem pie_all_total_successes (df : DataFrame) :
  binary df →
  (Z.of_nat (length (rows df)) < 2 ^ 63)%Z →
  ∃ fig,
    update_pie_chart df "ALL" = Ok fig
    ∧ total (pie_data_frame fig).*2
      = Z.of_nat (length (filter (λ r, class r = 1%Z ∧ Launch_Site r ≠ None)
                                 (rows df))).
Proof.
  intros Hbin Hlen. eexists. split; [apply update_pie_chart_all|].
  cbn [pie_data_frame]. rewrite pie_all_values.
  by rewrite groupby_sum_total_binary.
Qed.

(** X10. In a dataset whose classes are all 0 or 1 (and of fewer than 2^63
    records), the slice of a site in the pie for ALL has the count of the
    Success slice of the pie of that site. *)
Theorem pie_success_matches_all (df : DataFrame) (s : string) :
  binary df →
  (Z.of_nat (length (rows df)) < 2 ^ 63)%Z →
  s ≠ "ALL" →
  Some s ∈ Launch_Site <$> rows df →
  ∃ fig_all fig_site n,
    update_pie_chart df "ALL" = Ok fig_all
    ∧ update_pie_chart df s = Ok fig_site
    ∧ (LStr s, n) ∈ pie_data_frame fig_all
    ∧ (LStr "Success", n) ∈ pie_data_frame fig_site.
Proof.
  intros Hbin Hlen Hs Hin. eexists. eexists. exists (outcome_count df s 1).
  split; [apply update_pie_chart_all|].
  split; [by apply update_pie_chart_site|]. cbn [pie_data_frame]. split.
  - apply (list_elem_of_fmap_2' _ _ (s, outcome_count df s 1)); [|done].
    apply groupby_sum_elem_of. split; [done|]. symmetry.
    by apply group_sum_binary.
  - by left.
Qed.

(** X12. Whatever the classes of the dataset are, the two counts of the pie
    of a site add up to the number of the site's records of class 0 or 1:
    a record of another class is in neither slice. *)
Theorem pie_site_drops_other_classes (df : DataFrame) (s : string) :
  s ≠ "ALL" →
  ∃ fig,
    update_pie_chart df s = Ok fig
    ∧ total (pie_data_frame fig).*2
      = Z.of_nat (length (filter (λ r, Launch_Site r = Some s
                                       ∧ (class r = 0%Z ∨ class r = 1%Z)) (rows df))).
Proof.
  intros Hs. eexists. split; [by apply update_pie_chart_site|].
  cbn. rewrite <- outcome_counts_sum. lia.
Qed.

(** X13. Every site name the dropdown offers has a record: the pie of an
    offered site (an option other than ALL and other than the option of
    the missing site) is never the pie of an unknown site, and with classes
    0 or 1 its two counts add up to at least 1. *)
Theorem offered_site_has_records (df : DataFrame) (o : DropdownOption) (s : string) :
  o ∈ dd_options (site_dropdown df) →
  opt_value o = Some s →
  s ≠ "ALL" →
  ∃ fig,
    update_pie_chart df s = Ok fig
    ∧ (1 ≤ site_count df s)%Z
    ∧ (binary df → (1 ≤ total (pie_data_frame fig).*2)%Z).
Proof.
  intros Ho Hv Hs.
  assert (Some s ∈ Launch_Site <$> rows df) as Hin.
  { unfold site_dropdown in Ho. cbn in Ho.
    apply elem_of_cons in Ho as [->|Ho]; [by injection Hv as <-|].
    apply list_elem_of_fmap in Ho as (s' & -> & Hs'). cbn in Hv. subst s'.
    by rewrite elem_of_unique in Hs'. }
  pose proof (site_count_positive df _ Hin) as Hpos.
  eexists. split; [by apply update_pie_chart_site|]. split; [done|].
  intros Hbin. cbn. rewrite <- (outcome_counts_add_up df _ Hbin) in Hpos. lia.
Qed.

(** ** Further properties of the scatter chart *)




(** X5. The first rendering, with the default values of the two controls
    (the dropdown at ALL, the slider at the dataset bounds), shows every
    record that has a payload mass, and only the records without one are
    left out. *)
Theorem initial_scatter (df : DataFrame) :
  ∃ fig,
    update_scatter_chart df (dd_value (site_dropdown df))
                         (PyList (PNum <$> rs_value (payload_slider df))) = Ok fig
    ∧ scatter_data_frame fig = filter (λ r, payload r ≠ NaN) (rows df).
Proof.
  destruct (update_scatter_chart_points df "ALL" _ _ _
              (bounds_of_list df (PNum (min_payload df)) (PNum (max_payload df))))
    as (fig & Hfig & Hdata & _).
  exists fig. split; [done|]. rewrite Hdata.
  apply filter_iff_elem_of. intros r Hr. unfold passes, at_site.
  rewrite (in_range_full df r Hr). tauto.
Qed.

(** X6. Filtering again changes nothing: the scatter callback run on the
    points it returned, with the same selection, returns the same points. *)
Theorem scatter_refilter (df : DataFrame) (site : string) (low high : num) :
  ∃ fig fig',
    update_scatter_chart df site (PyList [PNum low; PNum high]) = Ok fig
    ∧ update_scatter_chart (with_rows df (scatter_data_frame fig)) site
                           (PyList [PNum low; PNum high]) = Ok fig'
    ∧ scatter_data_frame fig' = scatter_data_frame fig.
Proof.
  destruct (update_scatter_chart_points df site _ _ _
              (bounds_of_list df (PNum low) (PNum high))) as (fig & Hfig & Hdata & _).
  destruct (update_scatter_chart_points (with_rows df (scatter_data_frame fig))
              site _ _ _ (bounds_of_list _ (PNum low) (PNum high)))
    as (fig' & Hfig' & Hdata' & _).
  exists fig, fig'. split; [done|]. split; [done|].
  rewrite Hdata'. cbn [with_rows rows]. rewrite Hdata. apply filter_idemp.
Qed.

(** X7. Where the integers among the bounds and the payload masses are at
    most 2^53 in magnitude (float64 holds them exactly), a wider payload
    range shows at least the same points: the points for (low, high) are a
    subsequence of the points for (low', high') when low' ≤ low and
    high ≤ high'. *)
Theorem scatter_range_monotone (df : DataFrame) (site : string)
    (low high low' high' : num) (lo hi lo' hi' : Q) :
  safe low → safe high → safe low' → safe high' → safe_payloads df →
  value low = Some lo → value high = Some hi →
  value low' = Some lo' → value high' = Some hi' →
  (lo' <= lo)%Q → (hi <= hi')%Q →
  ∃ fig fig',
    update_scatter_chart df site (PyList [PNum low; PNum high]) = Ok fig
    ∧ update_scatter_chart df site (PyList [PNum low'; PNum high']) = Ok fig'
    ∧ scatter_data_frame fig `sublist_of` scatter_data_frame fig'.
Proof.
  intros Hs1 Hs2 Hs3 Hs4 Hsafe Hv1 Hv2 Hv3 Hv4 Hlo Hhi.
  destruct (update_scatter_chart_points df site _ _ _
              (bounds_of_list df (PNum low) (PNum high))) as (fig & Hfig & Hdata & _).
  destruct (update_scatter_chart_points df site _ _ _
              (bounds_of_list df (PNum low') (PNum high'))) as (fig' & Hfig' & Hdata' & _).
  exists fig, fig'. split; [done|]. split; [done|]. rewrite Hdata, Hdata'.
  apply filter_sublist_mono. intros r Hin [Hr Hsite]. split; [|done].
  apply in_range_safe in Hr; auto. apply in_range_safe; auto.
  destruct Hr as (l & p & h & Hl & Hp & Hh & H1 & H2).
  rewrite Hv1 in Hl. rewrite Hv2 in Hh. injection Hl as <-. injection Hh as <-.
  exists lo', p, hi'. do 3 (split; [done|]). split; by eapply Qle_trans.
Qed.

(** X8. The points of a site are the points of ALL for the same payload
    range, cut down to the records of the site, in the same order. *)
Theorem scatter_site_of_all (df : DataFrame) (site : string) (low high : num) :
  site ≠ "ALL" →
  ∃ fig_all fig_site,
    update_scatter_chart df "ALL" (PyList [PNum low; PNum high]) = Ok fig_all
    ∧ update_scatter_chart df site (PyList [PNum low; PNum high]) = Ok fig_site
    ∧ scatter_data_frame fig_site
      = filter (λ r, Launch_Site r = Some site) (scatter_data_frame fig_all)
    ∧ scatter_data_frame fig_site `sublist_of` scatter_data_frame fig_all.
Proof.
  intros Hsite.
  destruct (update_scatter_chart_points df "ALL" _ _ _
              (bounds_of_list df (PNum low) (PNum high))) as (fa & Hfa & Hda & _).
  destruct (update_scatter_chart_points df site _ _ _
              (bounds_of_list df (PNum low) (PNum high))) as (fs & Hfs & Hds & _).
  exists fa, fs. split; [done|]. split; [done|].
  assert (scatter_data_frame fs
          = filter (λ r, Launch_Site r = Some site) (scatter_data_frame fa)) as Heq.
  { rewrite Hds, Hda, list_filter_filter. apply list_filter_iff.
    intros r. unfold passes, at_site. intuition congruence. }
  split; [done|]. rewrite Heq. apply sublist_filter.
Qed.

(** X14. A NaN bound selects nothing: when low or high is NaN every
    comparison of the mask is False and the scatter figure has no point. *)
Theorem scatter_nan_bound (df : DataFrame) (site : string) (low high : num) :
  low = NaN ∨ high = NaN →
  ∃ fig,
    update_scatter_chart df site (PyList [PNum low; PNum high]) = Ok fig
    ∧ scatter_data_frame fig = [].
Proof.
  intros Hnan.
  destruct (update_scatter_chart_points df site _ _ _
              (bounds_of_list df (PNum low) (PNum high))) as (fig & Hfig & Hdata & _).
  exists fig. split; [done|]. rewrite Hdata. apply filter_none.
  intros r _ [Hr _]. by eapply in_range_nan.
Qed.

(** ** The scenario of the specification, and the inputs that separate the
    specification from the code *)

Example scenario_pie_all :
  pie_data_frame <$> result_to_option (update_pie_chart scenario_df "ALL")
  = Some [(LStr "CCAFS", 1%Z); (LStr "VAFB", 1%Z)].
Proof. reflexivity. Qed.

Example scenario_pie_site :
  pie_data_frame <$> result_to_option (update_pie_chart scenario_df "CCAFS")
  = Some [(LStr "Success", 1%Z); (LStr "Failure", 1%Z)].
Proof. reflexivity. Qed.

Example scenario_scatter :
  scatter_data_frame <$>
    result_to_option
      (update_scatter_chart scenario_df "ALL" (PyList [PNum (Int 0); PNum (Int 3000)]))
  = Some [mkRecord (d:=int64) (Some "CCAFS") 500%Z 1;
          mkRecord (d:=int64) (Some "VAFB") 2000%Z 1].
Proof. reflexivity. Qed.

Example scatter_short_list_raises :
  update_scatter_chart scenario_df "ALL" (PyList [PNum (Int 0)]) = Raise ValueError.
Proof. reflexivity. Qed.

Example scatter_string_items_raise :
  update_scatter_chart scenario_df "ALL" (PyList [PStr "0"; PStr "3000"])
  = Raise TypeError.
Proof. reflexivity. Qed.

Example scatter_color_both_columns :
  scatter_color <$>
    result_to_option
      (update_scatter_chart
         (mkFrame int64
                  ("Booster Version" :: "Booster Version Category" :: columns scenario_df)
                  (rows scenario_df))
         "ALL" (PyList [PNum (Int 0); PNum (Int 3000)]))
  = Some (Some "Booster Version Category").
Proof. reflexivity. Qed.

Example scatter_color_no_column :
  scatter_color <$>
    result_to_option
      (update_scatter_chart scenario_df "ALL" (PyList [PNum (Int 0); PNum (Int 3000)]))
  = Some None.
Proof. reflexivity. Qed.

(** A record without launch site: the dropdown has an option for it, the
    pie for ALL has no slice for it. *)
Example blank_site_dropdown :
  opt_value <$> dd_options (site_dropdown blank_site_df)
  = [Some "ALL"; None; Some "KSC"].
Proof. reflexivity. Qed.

Example blank_site_pie_all :
  pie_data_frame <$> result_to_option (update_pie_chart blank_site_df "ALL")
  = Some [(LStr "KSC", 1%Z)].
Proof. reflexivity. Qed.

(** The sum of an int64 column wraps around. *)
Example sum_wraps :
  pd.sum [9223372036854775807; 9223372036854775807]%Z = (-2)%Z.
Proof. reflexivity. Qed.

(** C1 as stated fails: for the site KSC, which the scenario does not have,
    the pie figure is not empty, it holds two pairs of count 0. *)
Lemma unknown_site_pie_not_empty :
  "KSC" ≠ "ALL"
  ∧ (Some "KSC" ∉ Launch_Site <$> rows scenario_df)
  ∧ ∃ fig,
      update_pie_chart scenario_df "KSC" = Ok fig
      ∧ pie_data_frame fig = [(LStr "Success", 0%Z); (LStr "Failure", 0%Z)]
      ∧ pie_data_frame fig ≠ [].
Proof.
  split; [done|]. split.
  - cbn. rewrite !not_elem_of_cons. repeat split; try done. apply not_elem_of_nil.
  - eexists. split; [reflexivity|]. done.
Qed.

(** C2 as stated fails: in a dataset that has a launch site named ALL, the
    selection of that site is taken for the sentinel, and the pie figure
    holds the sums per site instead of the Success and Failure counts. *)
Lemma sentinel_named_site_pie :
  Some "ALL" ∈ Launch_Site <$> rows sentinel_df
  ∧ binary sentinel_df
  ∧ ∃ fig,
      update_pie_chart sentinel_df "ALL" = Ok fig
      ∧ pie_data_frame fig = [(LStr "ALL", 1%Z)]
      ∧ pie_data_frame fig
        ≠ [(LStr "Success", outcome_count sentinel_df "ALL" 1);
           (LStr "Failure", outcome_count sentinel_df "ALL" 0)].
Proof.
  split; [by left|]. split.
  - binary_rows.
  - eexists. split; [reflexivity|]. done.
Qed.

(** C3 as stated fails: in the scenario the payload masses run from 500 to
    4000, and the slider runs from 0 to 10000. *)
Lemma slider_not_dataset_bounds :
  min_payload scenario_df = Int 500
  ∧ max_payload scenario_df = Int 4000
  ∧ ¬ (rs_min (payload_slider scenario_df) == 500)%Q
  ∧ ¬ (rs_max (payload_slider scenario_df) == 4000)%Q.
Proof. repeat split; done. Qed.



(** ** The theorems at concrete inputs *)

(** The unknown site KSC on the scenario. *)
Lemma unknown_site_charts_witness :
  "KSC" ≠ "ALL"
  ∧ (Some "KSC" ∉ Launch_Site <$> rows scenario_df)
  ∧ ∃ fig,
      update_scatter_chart scenario_df "KSC"
        (PyList [PNum (Int 0); PNum (Int 3000)]) = Ok fig
      ∧ scatter_data_frame fig = [].
Proof.
  assert ("KSC" ≠ "ALL") as H1 by done.
  assert (Some "KSC" ∉ Launch_Site <$> rows scenario_df) as H2.
  { cbn. rewrite !not_elem_of_cons. repeat split; try done. apply not_elem_of_nil. }
  split; [exact H1|]. split; [exact H2|].
  exact (proj1 (proj2 (unknown_site_charts scenario_df "KSC" H1 H2))
           (Int 0) (Int 3000)).
Defined.

(** The site CCAFS on the scenario: one success, one failure, two records. *)
Lemma pie_site_counts_witness :
  "CCAFS" ≠ "ALL"
  ∧ ∃ fig,
      update_pie_chart scenario_df "CCAFS" = Ok fig
      ∧ pie_data_frame fig = [(LStr "Success", 1%Z); (LStr "Failure", 1%Z)]
      ∧ (binary scenario_df → (1 + 1)%Z = site_count scenario_df "CCAFS").
Proof.
  assert ("CCAFS" ≠ "ALL") as H1 by done.
  split; [exact H1|]. exact (pie_site_counts scenario_df "CCAFS" H1).
Defined.

(** The scenario kept whole by the invariants of the data model. *)
Lemma pie_all_sites_witness :
  no_missing_site scenario_df
  ∧ binary scenario_df
  ∧ (Z.of_nat (length (rows scenario_df)) < 2 ^ 63)%Z
  ∧ ∃ fig,
      update_pie_chart scenario_df "ALL" = Ok fig
      ∧ total (pie_data_frame fig).*2 = total (class <$> rows scenario_df).
Proof.
  assert (no_missing_site scenario_df) as H1.
  { intros r Hr; cbn in Hr; in_rows Hr; done. }
  assert (binary scenario_df) as H2 by binary_rows.
  assert (Z.of_nat (length (rows scenario_df)) < 2 ^ 63)%Z as H3 by (cbn; lia).
  split; [exact H1|]. split; [exact H2|]. split; [exact H3|].
  destruct (pie_all_sites scenario_df H1 H2 H3) as (fig & Hfig & _ & _ & _ & Ht & _).
  exists fig. split; [exact Hfig|exact Ht].
Defined.


(** The site VAFB on the scenario, payload range 0 to 3000. *)
Lemma scatter_site_filter_witness :
  "VAFB" ≠ "ALL"
  ∧ ∃ fig,
      update_scatter_chart scenario_df "VAFB"
        (PyList [PNum (Int 0); PNum (Int 3000)]) = Ok fig
      ∧ (∀ r, r ∈ scatter_data_frame fig → Launch_Site r = Some "VAFB")
      ∧ (∀ r, r ∈ scatter_data_frame fig ↔
              r ∈ rows scenario_df
              ∧ in_range (Int 0) (Int 3000) r ∧ Launch_Site r = Some "VAFB").
Proof.
  assert ("VAFB" ≠ "ALL") as H1 by done.
  split; [exact H1|].
  exact (scatter_site_filter scenario_df "VAFB" (Int 0) (Int 3000) H1).
Defined.


(** [None] for the payload range on the scenario. *)
Lemma scatter_default_bounds_witness :
  is_list_or_tuple PyNone = false
  ∧ update_scatter_chart scenario_df "CCAFS" PyNone
    = update_scatter_chart scenario_df "CCAFS"
        (PyList [PNum (min_payload scenario_df); PNum (max_payload scenario_df)])
  ∧ ∃ fig,
      update_scatter_chart scenario_df "CCAFS" PyNone = Ok fig
      ∧ scatter_data_frame fig
        = filter (λ r, payload r ≠ NaN ∧ at_site "CCAFS" r) (rows scenario_df).
Proof.
  assert (is_list_or_tuple PyNone = false) as H1 by reflexivity.
  split; [exact H1|].
  exact (scatter_default_bounds scenario_df "CCAFS" PyNone H1).
Defined.

(** ** The further theorems at concrete inputs *)

(** A dataset with a successful launch without launch site: one of its two
    successful launches is counted. *)
Lemma pie_all_total_successes_witness :
  binary blank_site_df
  ∧ (Z.of_nat (length (rows blank_site_df)) < 2 ^ 63)%Z
  ∧ ∃ fig,
      update_pie_chart blank_site_df "ALL" = Ok fig
      ∧ total (pie_data_frame fig).*2 = 1%Z.
Proof.
  assert (binary blank_site_df) as H1 by binary_rows.
  assert (Z.of_nat (length (rows blank_site_df)) < 2 ^ 63)%Z as H2 by (cbn; lia).
  split; [exact H1|]. split; [exact H2|].
  exact (pie_all_total_successes blank_site_df H1 H2).
Defined.

(** The site CCAFS on the scenario: one success in both pies. *)
Lemma pie_success_matches_all_witness :
  binary scenario_df
  ∧ (Z.of_nat (length (rows scenario_df)) < 2 ^ 63)%Z
  ∧ "CCAFS" ≠ "ALL"
  ∧ Some "CCAFS" ∈ Launch_Site <$> rows scenario_df
  ∧ ∃ fig_all fig_site n,
      update_pie_chart scenario_df "ALL" = Ok fig_all
      ∧ update_pie_chart scenario_df "CCAFS" = Ok fig_site
      ∧ (LStr "CCAFS", n) ∈ pie_data_frame fig_all
      ∧ (LStr "Success", n) ∈ pie_data_frame fig_site.
Proof.
  assert (binary scenario_df) as H1 by binary_rows.
  assert (Z.of_nat (length (rows scenario_df)) < 2 ^ 63)%Z as H2 by (cbn; lia).
  assert ("CCAFS" ≠ "ALL") as H3 by done.
  assert (Some "CCAFS" ∈ Launch_Site <$> rows scenario_df) as H4 by (by left).
  do 4 (split; [assumption|]).
  exact (pie_success_matches_all scenario_df "CCAFS" H1 H2 H3 H4).
Defined.

(** A site with a record of class 2: three records, two of them counted. *)
Lemma pie_site_drops_other_classes_witness :
  "KSC" ≠ "ALL"
  ∧ site_count odd_class_df "KSC" = 3%Z
  ∧ ∃ fig,
      update_pie_chart odd_class_df "KSC" = Ok fig
      ∧ total (pie_data_frame fig).*2 = 2%Z.
Proof.
  assert ("KSC" ≠ "ALL") as H1 by done.
  split; [exact H1|]. split; [reflexivity|].
  exact (pie_site_drops_other_classes odd_class_df "KSC" H1).
Defined.

(** The option VAFB of the scenario. *)
Lemma offered_site_has_records_witness :
  mkOption (Some "VAFB") (Some "VAFB") ∈ dd_options (site_dropdown scenario_df)
  ∧ opt_value (mkOption (Some "VAFB") (Some "VAFB")) = Some "VAFB"
  ∧ "VAFB" ≠ "ALL"
  ∧ ∃ fig,
      update_pie_chart scenario_df "VAFB" = Ok fig
      ∧ (1 ≤ site_count scenario_df "VAFB")%Z
      ∧ (binary scenario_df → (1 ≤ total (pie_data_frame fig).*2)%Z).
Proof.
  assert (mkOption (Some "VAFB") (Some "VAFB")
          ∈ dd_options (site_dropdown scenario_df)) as H1.
  { cbn. right. right. by left. }
  assert (opt_value (mkOption (Some "VAFB") (Some "VAFB")) = Some "VAFB") as H2
    by reflexivity.
  assert ("VAFB" ≠ "ALL") as H3 by done.
  do 3 (split; [assumption|]).
  exact (offered_site_has_records scenario_df _ "VAFB" H1 H2 H3).
Defined.

(** The range (1000, 2500) inside the range (0, 3000) on the scenario. *)
Lemma scatter_range_monotone_witness :
  safe (Int 1000) ∧ safe (Float 2500) ∧ safe (Int 0) ∧ safe (Int 3000)
  ∧ safe_payloads scenario_df
  ∧ value (Int 1000) = Some 1000%Q ∧ value (Float 2500) = Some 2500%Q
  ∧ value (Int 0) = Some 0%Q ∧ value (Int 3000) = Some 3000%Q
  ∧ (0 <= 1000)%Q
  ∧ (2500 <= 3000)%Q
  ∧ ∃ fig fig',
      update_scatter_chart scenario_df "ALL"
        (PyList [PNum (Int 1000); PNum (Float 2500)]) = Ok fig
      ∧ update_scatter_chart scenario_df "ALL"
          (PyList [PNum (Int 0); PNum (Int 3000)]) = Ok fig'
      ∧ scatter_data_frame fig `sublist_of` scatter_data_frame fig'.
Proof.
  assert (safe (Int 1000)) as H1 by (cbn; lia).
  assert (safe (Float 2500)) as H2 by done.
  assert (safe (Int 0)) as H3 by (cbn; lia).
  assert (safe (Int 3000)) as H4 by (cbn; lia).
  assert (safe_payloads scenario_df) as H5 by safe_rows.
  assert (value (Int 1000) = Some 1000%Q) as H6 by reflexivity.
  assert (value (Float 2500) = Some 2500%Q) as H7 by reflexivity.
  assert (value (Int 0) = Some 0%Q) as H8 by reflexivity.
  assert (value (Int 3000) = Some 3000%Q) as H9 by reflexivity.
  assert (0 <= 1000)%Q as H10 by (unfold Qle; cbn; lia).
  assert (2500 <= 3000)%Q as H11 by (unfold Qle; cbn; lia).
  do 11 (split; [assumption|]).
  exact (scatter_range_monotone scenario_df "ALL" _ _ _ _ _ _ _ _
           H1 H2 H3 H4 H5 H6 H7 H8 H9 H10 H11).
Defined.

(** The site CCAFS on the scenario, payload range 0 to 3000. *)
Lemma scatter_site_of_all_witness :
  "CCAFS" ≠ "ALL"
  ∧ ∃ fig_all fig_site,
      update_scatter_chart scenario_df "ALL"
        (PyList [PNum (Int 0); PNum (Int 3000)]) = Ok fig_all
      ∧ update_scatter_chart scenario_df "CCAFS"
          (PyList [PNum (Int 0); PNum (Int 3000)]) = Ok fig_site
      ∧ scatter_data_frame fig_site
        = filter (λ r, Launch_Site r = Some "CCAFS") (scatter_data_frame fig_all)
      ∧ scatter_data_frame fig_site `sublist_of` scatter_data_frame fig_all.
Proof.
  assert ("CCAFS" ≠ "ALL") as H1 by done.
  split; [exact H1|].
  exact (scatter_site_of_all scenario_df "CCAFS" (Int 0) (Int 3000) H1).
Defined.

(** A NaN upper bound on the scenario. *)
Lemma scatter_nan_bound_witness :
  (Int 0 = NaN ∨ NaN = NaN)
  ∧ ∃ fig,
      update_scatter_chart scenario_df "ALL" (PyList [PNum (Int 0); PNum NaN]) = Ok fig
      ∧ scatter_data_frame fig = [].
Proof.
  assert (Int 0 = NaN ∨ NaN = NaN) as H1 by (by right).
  split; [exact H1|].
  exact (scatter_nan_bound scenario_df "ALL" (Int 0) NaN H1).
Defined.
